(** * ESP32-C3 motor controller (MicroPython): model and verified properties

    Shallow embedding of [esp32_motor_micropython.py].  The module keeps two
    globals ([motor_running], [motor_speed]), drives three GPIO outputs and
    serves a tiny HTTP API from a blocking accept loop.

    - Python [str] values are modelled as [string]: MicroPython stores a
      [str] as its UTF-8 bytes, and every character the program looks at
      (space, newline, the route names) is ASCII.
    - The globals, the level last written to each output pin and the ordered
      trace of effects (pin writes, console output, socket traffic) form the
      [world]; functions of the program are computations in a state and
      exception monad over it.
    - [json.loads] belongs to the MicroPython runtime, not to this program:
      it is a parameter of the development ([json_loads]); a small reference
      decoder is given to instantiate it on concrete inputs. *)

From Stdlib Require Import String Ascii List ZArith Lia Bool Arith.
From Stdlib Require Import DecimalString.
From Stdlib Require Import Floats.SpecFloat.
Import ListNotations.
Local Open Scope string_scope.

(** ** Python strings *)

Module Py.

(** The double-quote and newline characters, as one-character strings. *)
Definition dq : string := String (ascii_of_nat 34) EmptyString.
Definition nl : string := String (ascii_of_nat 10) EmptyString.

(** [q s] is [s] between double quotes. *)
Definition q (s : string) : string := dq ++ s ++ dq.

(** MicroPython's [unichar_isspace]: space, and the controls 9 to 13. *)
Definition isspace (c : ascii) : bool :=
  let n := nat_of_ascii c in
  (n =? 32)%nat || ((9 <=? n)%nat && (n <=? 13)%nat).

Fixpoint lstrip (s : string) : string :=
  match s with
  | EmptyString => EmptyString
  | String c s' => if isspace c then lstrip s' else s
  end.

Fixpoint rstrip (s : string) : string :=
  match s with
  | EmptyString => EmptyString
  | String c s' =>
      match rstrip s' with
      | EmptyString => if isspace c then EmptyString else String c EmptyString
      | r => String c r
      end
  end.

(** [s.strip()] *)
Definition strip (s : string) : string := rstrip (lstrip s).

(** [s.split(sep)] for a one-character separator: never an empty list,
    and adjacent separators give empty fields. *)
Fixpoint split (sep : ascii) (s : string) : list string :=
  match s with
  | EmptyString => [EmptyString]
  | String c s' =>
      if Ascii.eqb c sep then EmptyString :: split sep s'
      else match split sep s' with
           | [] => [String c EmptyString]
           | field :: fields => String c field :: fields
           end
  end.

Definition lower_char (c : ascii) : ascii :=
  let n := nat_of_ascii c in
  if ((65 <=? n)%nat && (n <=? 90)%nat) then ascii_of_nat (n + 32) else c.

(** [s.lower()] *)
Fixpoint lower (s : string) : string :=
  match s with
  | EmptyString => EmptyString
  | String c s' => String (lower_char c) (lower s')
  end.

(** [str(b)] for a [bool]. *)
Definition str_bool (b : bool) : string := if b then "True" else "False".

(** [str(n)] for an [int]. *)
Definition str_int (n : Z) : string := NilZero.string_of_int (Z.to_int n).

(** [len(s)] *)
Definition len (s : string) : Z := Z.of_nat (String.length s).

(** [s[:n]] *)
Definition slice_to (n : nat) (s : string) : string := substring 0 n s.

(** Values a JSON decoder can return. *)
#[local] Set Warnings "-register-all".
Inductive pyobj : Type :=
| PyNone
| PyBool (b : bool)
| PyInt (n : Z)
| PyFloat (f : spec_float)
| PyStr (s : string)
| PyList (items : list pyobj)
| PyDict (items : list (string * pyobj)).

(** Truth value of an object, as tested by [if enabled:]. *)
Definition truthy (o : pyobj) : bool :=
  match o with
  | PyNone => false
  | PyBool b => b
  | PyInt n => negb (n =? 0)%Z
  | PyFloat (S754_zero _) => false
  | PyFloat _ => true
  | PyStr s => negb (s =? "")
  | PyList [] => false
  | PyList _ => true
  | PyDict [] => false
  | PyDict _ => true
  end.

(** [o == s] for a string literal [s]: only a [str] equals a [str]. *)
Definition eq_str (o : pyobj) (s : string) : bool :=
  match o with
  | PyStr t => t =? s
  | _ => false
  end.

(** [o in [s1, s2, ...]] for a list of string literals. *)
Definition in_strs (o : pyobj) (l : list string) : bool :=
  existsb (eq_str o) l.

(** Lookup in a dict held as its items in insertion order. *)
Fixpoint dict_lookup (items : list (string * pyobj)) (key : string)
  : option pyobj :=
  match items with
  | [] => None
  | (k, v) :: rest => if k =? key then Some v else dict_lookup rest key
  end.

(** The exceptions (all subclasses of [Exception]) the model raises. *)
Inductive exn : Type :=
| ValueError
| AttributeError
| UnicodeError
| OSError.

End Py.
Import Py.

(** ** The world: globals, output pins and the trace of effects *)

(** What [print] writes.  Fixed texts are kept as they are; formatted
    messages keep the values they interpolate. *)
Inductive log_msg : Type :=
| MsgText (text : string)
| MsgProcessingAlarm (action enabled : pyobj)
| MsgAlarmError (e : exn)
| MsgRequest (addr : string) (head : string)
| MsgHandlerError (e : exn)
| MsgServerError (e : exn).

Inductive event : Type :=
| PinWrite (gpio : nat) (level : bool)
| Print (msg : log_msg)
| Send (conn : nat) (data : string)
| Close (conn : nat)
| Sleep (seconds : nat)
| ApConfig (essid password : string)
| Listen (port backlog : nat)
| ServerClose.

Record world : Type := mkWorld {
  motor_running : bool;      (* global motor_running *)
  motor_speed : Z;           (* global motor_speed *)
  MOTOR_PIN1 : bool;         (* level of GPIO2 *)
  MOTOR_PIN2 : bool;         (* level of GPIO3 *)
  STATUS_LED : bool;         (* level of GPIO4 *)
  trace : list event         (* effects so far, oldest first *)
}.

(** The motor state proper: the two globals and the three pin levels. *)
Definition motor_state (w : world) : bool * Z * (bool * bool * bool) :=
  (motor_running w, motor_speed w, (MOTOR_PIN1 w, MOTOR_PIN2 w, STATUS_LED w)).

(** ** A state and exception monad *)

Inductive result (A : Type) : Type :=
| Ok (a : A)
| Raise (e : exn).
Arguments Ok {A} a.
Arguments Raise {A} e.

Definition M (A : Type) : Type := world -> result A * world.

Definition ret {A} (a : A) : M A := fun w => (Ok a, w).

Definition bind {A B} (m : M A) (k : A -> M B) : M B :=
  fun w =>
    match m w with
    | (Ok a, w') => k a w'
    | (Raise e, w') => (Raise e, w')
    end.

Definition raise {A} (e : exn) : M A := fun w => (Raise e, w).

(** [lift r] returns or raises as [r] says, without touching the world. *)
Definition lift {A} (r : result A) : M A := fun w => (r, w).

(** [try: m  except Exception as e: handler e] *)
Definition try_except {A} (m : M A) (handler : exn -> M A) : M A :=
  fun w =>
    match m w with
    | (Ok a, w') => (Ok a, w')
    | (Raise e, w') => handler e w'
    end.

(** [try: m  finally: cleanup] *)
Definition try_finally {A} (m : M A) (cleanup : M unit) : M A :=
  fun w =>
    match m w with
    | (r, w') =>
        match cleanup w' with
        | (Ok _, w'') => (r, w'')
        | (Raise e, w'') => (Raise e, w'')
        end
    end.

Declare Scope py_scope.
Delimit Scope py_scope with py.
Notation "x <- m ;; k" := (bind m (fun x => k))
  (at level 61, m at next level, right associativity) : py_scope.
Notation "m ;; k" := (bind m (fun _ => k))
  (at level 61, right associativity) : py_scope.
Local Open Scope py_scope.

(** World after running [m]; its result. *)
Definition exec {A} (m : M A) (w : world) : world := snd (m w).
Definition eval {A} (m : M A) (w : world) : result A := fst (m w).

Definition emit (e : event) : M unit :=
  fun w => (Ok tt,
            mkWorld (motor_running w) (motor_speed w)
                    (MOTOR_PIN1 w) (MOTOR_PIN2 w) (STATUS_LED w)
                    (trace w ++ [e])).

Definition print (msg : log_msg) : M unit := emit (Print msg).

Definition set_motor_running (b : bool) : M unit :=
  fun w => (Ok tt,
            mkWorld b (motor_speed w)
                    (MOTOR_PIN1 w) (MOTOR_PIN2 w) (STATUS_LED w) (trace w)).

(** [MOTOR_PIN1.on()] / [.off()], and likewise for the other two pins. *)
Definition MOTOR_PIN1_write (level : bool) : M unit :=
  fun w => (Ok tt,
            mkWorld (motor_running w) (motor_speed w)
                    level (MOTOR_PIN2 w) (STATUS_LED w)
                    (trace w ++ [PinWrite 2 level])).

Definition MOTOR_PIN2_write (level : bool) : M unit :=
  fun w => (Ok tt,
            mkWorld (motor_running w) (motor_speed w)
                    (MOTOR_PIN1 w) level (STATUS_LED w)
                    (trace w ++ [PinWrite 3 level])).

Definition STATUS_LED_write (level : bool) : M unit :=
  fun w => (Ok tt,
            mkWorld (motor_running w) (motor_speed w)
                    (MOTOR_PIN1 w) (MOTOR_PIN2 w) level
                    (trace w ++ [PinWrite 4 level])).

(** ** Motor control *)

Definition stop_motor : M unit :=
  set_motor_running false ;;
  MOTOR_PIN1_write false ;;
  MOTOR_PIN2_write false ;;
  STATUS_LED_write false ;;
  print (MsgText "Motor stopped").

Definition start_motor : M unit :=
  set_motor_running true ;;
  MOTOR_PIN1_write true ;;
  MOTOR_PIN2_write false ;;
  STATUS_LED_write true ;;
  print (MsgText "Motor started").

(** ** The request handler and the accept loop *)

(** An accepted connection: [conn_recv] is what
    [conn.recv(1024).decode('utf-8')] gives, a text or an exception. *)
Record connection : Type := mkConnection {
  conn_id : nat;
  conn_addr : string;
  conn_recv : result string
}.

(** What one [s.accept()] of the main loop yields.  [KeyboardInterrupt] is
    not an [Exception]; it is modelled where the program waits. *)
Inductive accept_result : Type :=
| Accepted (conn : connection)
| AcceptError (e : exn)
| KeyboardInterrupt.

Definition SSID : string := "ESP32-Motor".
Definition PASSWORD : string := "12345678".

Definition alarm_success : string :=
  "{" ++ q "status" ++ ": " ++ q "success" ++ "}".
Definition alarm_invalid : string :=
  "{" ++ q "error" ++ ": " ++ q "Invalid data" ++ "}".
Definition motor_started_json : string :=
  "{" ++ q "status" ++ ": " ++ q "Motor started" ++ "}".
Definition motor_stopped_json : string :=
  "{" ++ q "status" ++ ": " ++ q "Motor stopped" ++ "}".
Definition not_found_json : string :=
  "{" ++ q "error" ++ ": " ++ q "Not found" ++ "}".

(** The f-string of the [/status] route. *)
Definition status_json (running : bool) (speed : Z) : string :=
  "{" ++ q "status" ++ ": " ++ q "online" ++ ", "
      ++ q "motor_running" ++ ": " ++ lower (str_bool running) ++ ", "
      ++ q "motor_speed" ++ ": " ++ str_int speed ++ "}".

(** The f-string of the [/] route; every line of the literal is indented by
    sixteen spaces, the closing quotes included. *)
Definition indent16 : string := "                ".

Definition status_page (running : bool) (speed : Z) : string :=
  nl ++ indent16 ++ "<html><body>"
  ++ nl ++ indent16 ++ "<h1>ESP32-C3 Motor Controller</h1>"
  ++ nl ++ indent16 ++ "<p>Motor Status: "
        ++ (if running then "RUNNING" else "STOPPED") ++ "</p>"
  ++ nl ++ indent16 ++ "<p>Speed: " ++ str_int speed ++ "</p>"
  ++ nl ++ indent16 ++ "<button onclick="
        ++ q "fetch('/motor/start', {method:'POST'})"
        ++ ">START MOTOR</button>"
  ++ nl ++ indent16 ++ "<button onclick="
        ++ q "fetch('/motor/stop', {method:'POST'})"
        ++ ">STOP MOTOR</button>"
  ++ nl ++ indent16 ++ "</body></html>"
  ++ nl ++ indent16.

(** The f-string that frames every response. *)
Definition http_response (content_type response : string) : string :=
  "HTTP/1.1 200 OK" ++ nl
  ++ "Content-Type: " ++ content_type ++ nl
  ++ "Content-Length: " ++ str_int (len response) ++ nl
  ++ "Connection: close" ++ nl
  ++ nl
  ++ response.

(** [method, path, _ = request_line.split(' ')] *)
Definition unpack3 (tokens : list string) : result (string * string) :=
  match tokens with
  | [method; path; _] => Ok (method, path)
  | _ => Raise ValueError
  end.

(** The [for i, line in enumerate(lines)] loop, from index [i] on, [rest]
    being [lines[i:]].  The guard [i < len(lines) - 1] keeps [lines[i + 1]]
    in range. *)
Fixpoint scan_body (lines : list string) (i : nat) (rest : list string)
  : string :=
  match rest with
  | [] => ""
  | line :: rest' =>
      if (strip line =? "") && (i <? length lines - 1)%nat
      then nth (i + 1) lines ""
      else scan_body lines (S i) rest'
  end.

(** Lines 106 to 111: the body handed to the routes. *)
Definition request_body (method : string) (lines : list string) : string :=
  if method =? "POST" then scan_body lines 0 lines else "".

Definition get_motor_running : M bool := fun w => (Ok (motor_running w), w).
Definition get_motor_speed : M Z := fun w => (Ok (motor_speed w), w).

(** [alarm_data.get(key, default)]: only a dict has [get]. *)
Definition py_get (o : pyobj) (key : string) (default : pyobj) : M pyobj :=
  match o with
  | PyDict items =>
      ret (match dict_lookup items key with
           | Some v => v
           | None => default
           end)
  | _ => raise AttributeError
  end.

Definition setup_wifi : M unit :=
  emit (ApConfig SSID PASSWORD) ;;
  print (MsgText "WiFi hotspot created:") ;;
  print (MsgText ("SSID: " ++ SSID)) ;;
  print (MsgText ("Password: " ++ PASSWORD)) ;;
  print (MsgText "IP: 192.168.4.1").

Section Server.

(** [json.loads], of the runtime's [json] module. *)
Variable json_loads : string -> result pyobj.

Definition process_alarm_command (data : string) : M string :=
  try_except
    (alarm_data <- lift (json_loads data) ;;
     action <- py_get alarm_data "action" (PyStr "") ;;
     enabled <- py_get alarm_data "enabled" (PyBool false) ;;
     print (MsgProcessingAlarm action enabled) ;;
     (if in_strs action ["add"; "update"; "toggle"] then
        if truthy enabled then start_motor else stop_motor
      else if eq_str action "delete" then stop_motor
      else ret tt) ;;
     ret alarm_success)
    (fun e =>
       print (MsgAlarmError e) ;;
       ret alarm_invalid).

(** Lines 113 to 146: the route chain, giving [(response, content_type)]. *)
Definition route_request (method path body : string) : M (string * string) :=
  if path =? "/status" then
    running <- get_motor_running ;;
    speed <- get_motor_speed ;;
    ret (status_json running speed, "application/json")
  else if (path =? "/alarm") && (method =? "POST") then
    response <- process_alarm_command body ;;
    ret (response, "application/json")
  else if (path =? "/motor/start") && (method =? "POST") then
    start_motor ;;
    ret (motor_started_json, "application/json")
  else if (path =? "/motor/stop") && (method =? "POST") then
    stop_motor ;;
    ret (motor_stopped_json, "application/json")
  else if path =? "/" then
    running <- get_motor_running ;;
    speed <- get_motor_speed ;;
    ret (status_page running speed, "text/html")
  else
    ret (not_found_json, "application/json").

(** Lines 96 to 156: the body of the [try]. *)
Definition handle_request_try (conn : connection) : M unit :=
  request <- lift (conn_recv conn) ;;
  print (MsgRequest (conn_addr conn) (slice_to 100 request)) ;;
  let lines := split (ascii_of_nat 10) request in
  match lines with
  | [] => ret tt
  | request_line :: _ =>
      mp <- lift (unpack3 (split " "%char request_line)) ;;
      let method := fst mp in
      let path := snd mp in
      let body := request_body method lines in
      rc <- route_request method path body ;;
      emit (Send (conn_id conn) (http_response (snd rc) (fst rc)))
  end.

Definition handle_request (conn : connection) : M unit :=
  try_finally
    (try_except
       (handle_request_try conn)
       (fun e => print (MsgHandlerError e)))
    (emit (Close (conn_id conn))).

(** The [while True] loop of [main] over the successive results of
    [s.accept()]; [true] when it was left by [break].  When the results are
    used up the program is waiting in [accept]. *)
Fixpoint serve (incoming : list accept_result) : M bool :=
  match incoming with
  | [] => ret false
  | Accepted conn :: rest =>
      try_except
        (handle_request conn)
        (fun e => print (MsgServerError e) ;; emit (Sleep 1)) ;;
      serve rest
  | AcceptError e :: rest =>
      print (MsgServerError e) ;;
      emit (Sleep 1) ;;
      serve rest
  | KeyboardInterrupt :: _ =>
      print (MsgText "Shutting down...") ;;
      ret true
  end.

Definition main (incoming : list accept_result) : M unit :=
  print (MsgText "ESP32-C3 Motor Controller - MicroPython") ;;
  stop_motor ;;
  setup_wifi ;;
  emit (Listen 80 5) ;;
  print (MsgText "Server listening on port 80...") ;;
  left <- serve incoming ;;
  if left then emit ServerClose else ret tt.

End Server.

(** The module's globals at start-up; the pins hold whatever level the
    hardware gives them until first written. *)
Definition boot (pin1 pin2 led : bool) : world :=
  mkWorld false 128 pin1 pin2 led [].

(** ** A reference JSON decoder

    A decoder to put in place of [json_loads] on concrete requests.  It
    reads objects, arrays, strings with the one-character escapes, integers
    and the three literals; a number with a fraction or an exponent and a
    [\u] escape are refused with [ValueError].  The theorems below hold for
    every decoder and do not depend on it. *)

Module RefJson.

Definition is_json_space (c : ascii) : bool :=
  let n := nat_of_ascii c in
  (n =? 32)%nat || (n =? 9)%nat || (n =? 10)%nat || (n =? 13)%nat.

Fixpoint skip_ws (s : string) : string :=
  match s with
  | String c s' => if is_json_space c then skip_ws s' else s
  | EmptyString => EmptyString
  end.

Fixpoint strip_prefix (p s : string) : option string :=
  match p, s with
  | EmptyString, _ => Some s
  | String a p', String b s' => if Ascii.eqb a b then strip_prefix p' s' else None
  | String _ _, EmptyString => None
  end.

Definition unescape (c : ascii) : option ascii :=
  let n := nat_of_ascii c in
  if (n =? 34)%nat then Some c                        (* quote *)
  else if (n =? 92)%nat then Some c                   (* backslash *)
  else if (n =? 47)%nat then Some c                   (* slash *)
  else if (n =? 98)%nat then Some (ascii_of_nat 8)    (* b *)
  else if (n =? 102)%nat then Some (ascii_of_nat 12)  (* f *)
  else if (n =? 110)%nat then Some (ascii_of_nat 10)  (* n *)
  else if (n =? 114)%nat then Some (ascii_of_nat 13)  (* r *)
  else if (n =? 116)%nat then Some (ascii_of_nat 9)   (* t *)
  else None.

(** The characters of a string literal after its opening quote, and what
    follows the closing quote. *)
Fixpoint string_tail (s : string) : option (string * string) :=
  match s with
  | EmptyString => None
  | String c s' =>
      if (nat_of_ascii c =? 34)%nat then Some (EmptyString, s')
      else if (nat_of_ascii c =? 92)%nat then
        match s' with
        | EmptyString => None
        | String e s'' =>
            match unescape e, string_tail s'' with
            | Some c', Some (text, rest) => Some (String c' text, rest)
            | _, _ => None
            end
        end
      else if (nat_of_ascii c <? 32)%nat then None
      else
        match string_tail s' with
        | Some (text, rest) => Some (String c text, rest)
        | None => None
        end
  end.

Definition digit_value (c : ascii) : option Z :=
  let n := nat_of_ascii c in
  if ((48 <=? n)%nat && (n <=? 57)%nat) then Some (Z.of_nat (n - 48)) else None.

(** Digits read so far as [acc]; [seen] tells whether there was one. *)
Fixpoint digits (s : string) (acc : Z) (seen : bool) : option (Z * string) :=
  match s with
  | EmptyString => if seen then Some (acc, EmptyString) else None
  | String c s' =>
      match digit_value c with
      | Some d => digits s' (10 * acc + d)%Z true
      | None => if seen then Some (acc, s) else None
      end
  end.

Definition starts_fraction (s : string) : bool :=
  match s with
  | String c _ =>
      let n := nat_of_ascii c in
      (n =? 46)%nat || (n =? 101)%nat || (n =? 69)%nat
  | EmptyString => false
  end.

Definition integer (s : string) : option (pyobj * string) :=
  let signed :=
    match s with
    | String c s' => if (nat_of_ascii c =? 45)%nat then (true, s') else (false, s)
    | EmptyString => (false, s)
    end in
  match digits (snd signed) 0 false with
  | Some (n, rest) =>
      if starts_fraction rest then None
      else Some (PyInt (if fst signed then - n else n), rest)
  | None => None
  end.

(** Storing under a key already present replaces its value in place. *)
Fixpoint dict_store (items : list (string * pyobj)) (key : string) (v : pyobj)
  : list (string * pyobj) :=
  match items with
  | [] => [(key, v)]
  | (k, old) :: rest =>
      if k =? key then (k, v) :: rest else (k, old) :: dict_store rest key v
  end.

Definition head_is (n : nat) (s : string) : option string :=
  match s with
  | String c s' => if (nat_of_ascii c =? n)%nat then Some s' else None
  | EmptyString => None
  end.

Fixpoint value (fuel : nat) (s : string) : option (pyobj * string) :=
  match fuel with
  | O => None
  | S fuel' =>
      let s := skip_ws s in
      match head_is 123 s, head_is 91 s, head_is 34 s with
      | Some rest, _, _ =>                                  (* object *)
          match head_is 125 (skip_ws rest) with
          | Some rest' => Some (PyDict [], rest')
          | None => members fuel' rest []
          end
      | None, Some rest, _ =>                               (* array *)
          match head_is 93 (skip_ws rest) with
          | Some rest' => Some (PyList [], rest')
          | None => elements fuel' rest []
          end
      | None, None, Some rest =>                            (* string *)
          match string_tail rest with
          | Some (text, rest') => Some (PyStr text, rest')
          | None => None
          end
      | None, None, None =>
          match strip_prefix "true" s, strip_prefix "false" s,
                strip_prefix "null" s with
          | Some rest, _, _ => Some (PyBool true, rest)
          | None, Some rest, _ => Some (PyBool false, rest)
          | None, None, Some rest => Some (PyNone, rest)
          | None, None, None => integer s
          end
      end
  end
with members (fuel : nat) (s : string) (acc : list (string * pyobj))
  : option (pyobj * string) :=
  match fuel with
  | O => None
  | S fuel' =>
      match head_is 34 (skip_ws s) with
      | None => None
      | Some rest =>
          match string_tail rest with
          | None => None
          | Some (key, rest1) =>
              match head_is 58 (skip_ws rest1) with
              | None => None
              | Some rest2 =>
                  match value fuel' rest2 with
                  | None => None
                  | Some (v, rest3) =>
                      let acc' := dict_store acc key v in
                      match head_is 44 (skip_ws rest3),
                            head_is 125 (skip_ws rest3) with
                      | Some rest4, _ => members fuel' rest4 acc'
                      | None, Some rest4 => Some (PyDict acc', rest4)
                      | None, None => None
                      end
                  end
              end
          end
      end
  end
with elements (fuel : nat) (s : string) (acc : list pyobj)
  : option (pyobj * string) :=
  match fuel with
  | O => None
  | S fuel' =>
      match value fuel' s with
      | None => None
      | Some (v, rest) =>
          match head_is 44 (skip_ws rest), head_is 93 (skip_ws rest) with
          | Some rest', _ => elements fuel' rest' (acc ++ [v])
          | None, Some rest' => Some (PyList (acc ++ [v]), rest')
          | None, None => None
          end
      end
  end.

Definition loads (s : string) : result pyobj :=
  match value (2 * String.length s + 2) s with
  | Some (v, rest) =>
      match skip_ws rest with
      | EmptyString => Ok v
      | _ => Raise ValueError
      end
  | None => Raise ValueError
  end.

End RefJson.

(** ** Vocabulary of the properties *)

(** [lines = request.split('\n')] and the tokens of [lines[0]]. *)
Definition request_lines (request : string) : list string :=
  split (ascii_of_nat 10) request.

Definition request_tokens (request : string) : list string :=
  match request_lines request with
  | [] => []
  | request_line :: _ => split " "%char request_line
  end.

(** [w] with more effects recorded and nothing else changed. *)
Definition log (w : world) (es : list event) : world :=
  mkWorld (motor_running w) (motor_speed w)
          (MOTOR_PIN1 w) (MOTOR_PIN2 w) (STATUS_LED w) (trace w ++ es).

(** [w] with the motor stopped, respectively started, and more effects. *)
Definition stopped_after (w : world) (es : list event) : world :=
  mkWorld false (motor_speed w) false false false (trace w ++ es).

Definition started_after (w : world) (es : list event) : world :=
  mkWorld true (motor_speed w) true false true (trace w ++ es).

(** The effects of one [stop_motor()], of one [start_motor()]. *)
Definition stop_events : list event :=
  [PinWrite 2 false; PinWrite 3 false; PinWrite 4 false;
   Print (MsgText "Motor stopped")].

Definition start_events : list event :=
  [PinWrite 2 true; PinWrite 3 false; PinWrite 4 true;
   Print (MsgText "Motor started")].

(** Both control pins low and the indicator off, with the flag down. *)
Definition is_stopped (w : world) : bool :=
  negb (motor_running w) && negb (MOTOR_PIN1 w) && negb (MOTOR_PIN2 w)
  && negb (STATUS_LED w).

(** A sequence of calls of the two motor operations. *)
Inductive motor_call : Type :=
| CallStart
| CallStop.

Definition do_call (c : motor_call) : M unit :=
  match c with
  | CallStart => start_motor
  | CallStop => stop_motor
  end.

Fixpoint do_calls (cs : list motor_call) : M unit :=
  match cs with
  | [] => ret tt
  | c :: cs' => do_call c ;; do_calls cs'
  end.

Definition wants_running (c : motor_call) : bool :=
  match c with
  | CallStart => true
  | CallStop => false
  end.

(** The five routes of the specification's table: a path, and the method it
    asks for if it asks for one. *)
Definition routes : list (string * option string) :=
  [("/status", None);
   ("/alarm", Some "POST");
   ("/motor/start", Some "POST");
   ("/motor/stop", Some "POST");
   ("/", None)].

Definition route_matches (method path : string)
  (r : string * option string) : bool :=
  (path =? fst r)
  && match snd r with
     | None => true
     | Some m => method =? m
     end.

Definition matches_route (method path : string) : bool :=
  existsb (route_matches method path) routes.

(** The body as the specification words it: the line after the first blank
    line that is not the last line, or the empty string. *)
Definition blank_not_last (lines : list string) (i : nat) : bool :=
  (strip (nth i lines "") =? "") && negb (i =? length lines - 1)%nat.

Definition body_spec (lines : list string) : string :=
  match find (blank_not_last lines) (seq 0 (length lines)) with
  | Some i => nth (i + 1) lines ""
  | None => ""
  end.

Definition is_blank (line : string) : bool := strip line =? "".

(** What a frame effect is: a computation that leaves [motor_speed] alone. *)
Definition keeps_speed {A} (m : M A) : Prop :=
  forall w, motor_speed (exec m w) = motor_speed w.

(** The event that logs the receipt of [request] on [conn]. *)
Definition request_logged (conn : connection) (request : string) : event :=
  Print (MsgRequest (conn_addr conn) (slice_to 100 request)).

(** What the command does to the world once the decoder gave a dict. *)
Definition alarm_effect (action enabled : pyobj) (w : world) : world :=
  let w0 := log w [Print (MsgProcessingAlarm action enabled)] in
  if in_strs action ["add"; "update"; "toggle"] then
    if truthy enabled then started_after w0 start_events
    else stopped_after w0 stop_events
  else if eq_str action "delete" then stopped_after w0 stop_events
  else w0.

Definition get_or (items : list (string * pyobj)) (key : string)
  (default : pyobj) : pyobj :=
  match dict_lookup items key with
  | Some v => v
  | None => default
  end.

(** The body and the decoded value of the toggle command that enables. *)
Definition toggle_enabled_body : string :=
  "{" ++ q "action" ++ ":" ++ q "toggle" ++ "," ++ q "enabled" ++ ":true}".

Definition toggle_enabled_dict : pyobj :=
  PyDict [("action", PyStr "toggle"); ("enabled", PyBool true)].

(** ** Sample requests *)

Module Samples.

Definition cr : string := String (ascii_of_nat 13) EmptyString.
Definition crlf : string := cr ++ nl.

Definition add_body : string := "{" ++ q "action" ++ ": " ++ q "add" ++ "}".

Definition post (path body : string) : string :=
  "POST " ++ path ++ " HTTP/1.1" ++ crlf
  ++ "Host: 192.168.4.1" ++ crlf
  ++ "Content-Type: application/json" ++ crlf
  ++ crlf ++ body.

Definition get (path : string) : string :=
  "GET " ++ path ++ " HTTP/1.1" ++ crlf
  ++ "Host: 192.168.4.1" ++ crlf ++ crlf.

Definition client : string := "('192.168.4.2', 50000)".

Definition conn_of (id : nat) (request : string) : connection :=
  mkConnection id client (Ok request).

Definition alarm_toggle_on : connection := conn_of 1 (post "/alarm" toggle_enabled_body).
Definition status_query : connection := conn_of 2 (get "/status").
Definition alarm_garbage : connection := conn_of 3 (post "/alarm" "not json").
Definition stop_request : connection := conn_of 4 (post "/motor/stop" "").
Definition unknown_path : connection := conn_of 5 (get "/unknown/path").
Definition no_version : connection := conn_of 6 ("GET /status" ++ crlf ++ crlf).
Definition two_line_body : list string :=
  ["POST /alarm HTTP/1.1" ++ cr; "Host: 192.168.4.1" ++ cr; cr;
   "{" ++ q "action" ++ ":"; q "toggle" ++ "}"].

Definition running_world : world := mkWorld true 128 true false true [].

End Samples.

(** ** Vocabulary of the further properties *)

(** The pins agree with the flag: pin 1 and the indicator follow it, pin 2
    is low. *)
Definition pins_consistent (w : world) : bool :=
  Bool.eqb (MOTOR_PIN1 w) (motor_running w)
  && negb (MOTOR_PIN2 w)
  && Bool.eqb (STATUS_LED w) (motor_running w).

Definition is_interrupt (a : accept_result) : bool :=
  match a with
  | KeyboardInterrupt => true
  | _ => false
  end.

Definition is_dict (o : pyobj) : bool :=
  match o with
  | PyDict _ => true
  | _ => false
  end.

Definition decodes_to_dict (r : result pyobj) : bool :=
  match r with
  | Ok o => is_dict o
  | Raise _ => false
  end.



(** [m] never lets an exception out. *)
Definition returns {A} (m : M A) : Prop :=
  forall w, exists a, eval m w = Ok a.

(** [m] only adds events to the trace, all of them allowed by [P]. *)
Definition emits (P : event -> bool) {A} (m : M A) : Prop :=
  forall w, exists es,
    trace (exec m w) = (trace w ++ es)%list /\ forallb P es = true.

(** [m] keeps the invariant [I] of the world. *)
Definition preserves (I : world -> bool) {A} (m : M A) : Prop :=
  forall w, I w = true -> I (exec m w) = true.


Definition status_line : string := "HTTP/1.1 200 OK" ++ nl.

(** The pin writes of the two motor operations: any level on GPIO2 and
    GPIO4, only low on GPIO3. *)
Definition motor_pin_write (gpio : nat) (level : bool) : bool :=
  (gpio =? 2)%nat || ((gpio =? 3)%nat && negb level) || (gpio =? 4)%nat.

(** What handling the connection [id] may do. *)
Definition handler_event (id : nat) (e : event) : bool :=
  match e with
  | PinWrite gpio level => motor_pin_write gpio level
  | Print _ => true
  | Send c d => (c =? id)%nat && String.prefix status_line d
  | Close c => (c =? id)%nat
  | _ => false
  end.

(** What the whole program may do. *)
Definition server_event (e : event) : bool :=
  match e with
  | PinWrite gpio level => motor_pin_write gpio level
  | Print _ => true
  | Send _ d => String.prefix status_line d
  | Close _ => true
  | Sleep n => (n =? 1)%nat
  | ApConfig essid password => (essid =? SSID) && (password =? PASSWORD)
  | Listen port backlog => (port =? 80)%nat && (backlog =? 5)%nat
  | ServerClose => true
  end.


(** The request is a POST to one of the three routes that drive the motor. *)
Definition may_actuate (conn : connection) : bool :=
  match conn_recv conn with
  | Ok request =>
      match request_tokens request with
      | [method; path; _] =>
          (method =? "POST")
          && ((path =? "/alarm") || (path =? "/motor/start")
              || (path =? "/motor/stop"))
      | _ => false
      end
  | Raise _ => false
  end.

Fixpoint all_space (s : string) : bool :=
  match s with
  | EmptyString => true
  | String c s' => isspace c && all_space s'
  end.

Fixpoint count_char (c : ascii) (s : string) : nat :=
  match s with
  | EmptyString => 0
  | String d s' => (if Ascii.eqb d c then 1 else 0) + count_char c s'
  end.

(** [sep.join(fields)] for a one-character separator. *)
Fixpoint join (sep : ascii) (fields : list string) : string :=
  match fields with
  | [] => EmptyString
  | [field] => field
  | field :: rest => field ++ String sep (join sep rest)
  end.

(** What [main] does before it waits for the first connection. *)
Definition startup_events : list event :=
  [Print (MsgText "ESP32-C3 Motor Controller - MicroPython")]
  ++ stop_events
  ++ [ApConfig "ESP32-Motor" "12345678";
      Print (MsgText "WiFi hotspot created:");
      Print (MsgText "SSID: ESP32-Motor");
      Print (MsgText "Password: 12345678");
      Print (MsgText "IP: 192.168.4.1");
      Listen 80 5;
      Print (MsgText "Server listening on port 80...")].

(** ** Further sample requests *)

Module Cases.

Definition delete_body : string :=
  "{" ++ q "action" ++ ":" ++ q "delete" ++ "," ++ q "enabled" ++ ":true}".

Definition enabled_only_body : string := "{" ++ q "enabled" ++ ": true}".

Definition list_body : string := "[1, 2]".

Definition update_text_body : string :=
  "{" ++ q "action" ++ ":" ++ q "update" ++ "," ++ q "enabled" ++ ":"
      ++ q "false" ++ "}".

Definition toggle_off_body : string :=
  "{" ++ q "action" ++ ":" ++ q "toggle" ++ "," ++ q "enabled" ++ ":false}".

Definition alarm_list : connection :=
  Samples.conn_of 7 (Samples.post "/alarm" list_body).
Definition start_request : connection :=
  Samples.conn_of 8 (Samples.post "/motor/start" "").
Definition status_post : connection :=
  Samples.conn_of 10 (Samples.post "/status" toggle_off_body).
Definition get_motor_start : connection :=
  Samples.conn_of 11 (Samples.get "/motor/start").
Definition broken : connection :=
  mkConnection 12 Samples.client (Raise UnicodeError).

End Cases.

(** ** Running the primitives *)

Lemma log_nil w : log w [] = w.
Proof. destruct w; unfold log; simpl; now rewrite app_nil_r. Qed.

Lemma log_log w es es' : log (log w es) es' = log w (es ++ es').
Proof. unfold log; simpl; now rewrite app_assoc. Qed.

Lemma log_stopped_after w es es' :
  log (stopped_after w es) es' = stopped_after w (es ++ es').
Proof. unfold log, stopped_after; simpl; now rewrite app_assoc. Qed.

Lemma log_started_after w es es' :
  log (started_after w es) es' = started_after w (es ++ es').
Proof. unfold log, started_after; simpl; now rewrite app_assoc. Qed.

Lemma stopped_after_log w es es' :
  stopped_after (log w es) es' = stopped_after w (es ++ es').
Proof. unfold log, stopped_after; simpl; now rewrite app_assoc. Qed.

Lemma started_after_log w es es' :
  started_after (log w es) es' = started_after w (es ++ es').
Proof. unfold log, started_after; simpl; now rewrite app_assoc. Qed.

Lemma motor_state_log w es : motor_state (log w es) = motor_state w.
Proof. reflexivity. Qed.

Lemma emit_run e w : emit e w = (Ok tt, log w [e]).
Proof. reflexivity. Qed.

Lemma print_run msg w : print msg w = (Ok tt, log w [Print msg]).
Proof. reflexivity. Qed.

Lemma stop_motor_run w : stop_motor w = (Ok tt, stopped_after w stop_events).
Proof.
  unfold stop_motor, bind, set_motor_running, MOTOR_PIN1_write,
    MOTOR_PIN2_write, STATUS_LED_write, print, emit, stopped_after,
    stop_events; simpl.
  now rewrite <- !app_assoc.
Qed.

Lemma start_motor_run w : start_motor w = (Ok tt, started_after w start_events).
Proof.
  unfold start_motor, bind, set_motor_running, MOTOR_PIN1_write,
    MOTOR_PIN2_write, STATUS_LED_write, print, emit, started_after,
    start_events; simpl.
  now rewrite <- !app_assoc.
Qed.

Lemma bind_run {A B} (m : M A) (k : A -> M B) w a w' :
  m w = (Ok a, w') -> bind m k w = k a w'.
Proof. intros H; unfold bind; now rewrite H. Qed.

Lemma do_call_run c w :
  do_call c w
  = (Ok tt, if wants_running c then started_after w start_events
            else stopped_after w stop_events).
Proof. destruct c; simpl; [apply start_motor_run | apply stop_motor_run]. Qed.

Lemma do_calls_app cs cs' w :
  do_calls (cs ++ cs') w = do_calls cs' (exec (do_calls cs) w).
Proof.
  revert w; induction cs as [|c cs IH]; intros w; simpl.
  - reflexivity.
  - unfold exec at 1; rewrite !(bind_run _ _ _ _ _ (do_call_run c w)).
    now rewrite IH.
Qed.

(** ** The motor operations *)

(** C1. After any non-empty sequence of [start_motor]/[stop_motor] calls,
    from any world, the calls have returned, [motor_running] tells whether
    the last call was a start, and the pins are in the matching one of two
    configurations: control pin 1 high and pin 2 low with the indicator on
    when running, both control pins low with the indicator off when not. *)
Theorem start_stop_sequence_invariant :
  forall (calls : list motor_call) (last : motor_call) (w : world),
    let w' := exec (do_calls (calls ++ [last])) w in
    eval (do_calls (calls ++ [last])) w = Ok tt
    /\ motor_running w' = wants_running last
    /\ (motor_running w' = true <-> last = CallStart)
    /\ (motor_running w' = false <-> last = CallStop)
    /\ (MOTOR_PIN1 w', MOTOR_PIN2 w')
       = (if motor_running w' then (true, false) else (false, false))
    /\ STATUS_LED w' = motor_running w'.
Proof.
  intros calls last w; cbv zeta.
  unfold exec, eval; rewrite do_calls_app.
  set (w0 := exec (do_calls calls) w); simpl.
  rewrite (bind_run _ _ _ _ _ (do_call_run last w0)).
  destruct last; simpl; repeat split; intros; congruence.
Qed.

(** ** Frame lemmas for [motor_speed] *)

Lemma keeps_speed_ret {A} (a : A) : keeps_speed (ret a).
Proof. now intros w. Qed.

Lemma keeps_speed_raise {A} e : keeps_speed (@raise A e).
Proof. now intros w. Qed.

Lemma keeps_speed_lift {A} (r : result A) : keeps_speed (lift r).
Proof. now intros w. Qed.

Lemma keeps_speed_emit e : keeps_speed (emit e).
Proof. now intros w. Qed.

Lemma keeps_speed_print msg : keeps_speed (print msg).
Proof. now intros w. Qed.

Lemma keeps_speed_set_motor_running b : keeps_speed (set_motor_running b).
Proof. now intros w. Qed.

Lemma keeps_speed_MOTOR_PIN1_write b : keeps_speed (MOTOR_PIN1_write b).
Proof. now intros w. Qed.

Lemma keeps_speed_MOTOR_PIN2_write b : keeps_speed (MOTOR_PIN2_write b).
Proof. now intros w. Qed.

Lemma keeps_speed_STATUS_LED_write b : keeps_speed (STATUS_LED_write b).
Proof. now intros w. Qed.

Lemma keeps_speed_get_motor_running : keeps_speed get_motor_running.
Proof. now intros w. Qed.

Lemma keeps_speed_get_motor_speed : keeps_speed get_motor_speed.
Proof. now intros w. Qed.

Lemma keeps_speed_bind {A B} (m : M A) (k : A -> M B) :
  keeps_speed m -> (forall a, keeps_speed (k a)) -> keeps_speed (bind m k).
Proof.
  intros Hm Hk w; specialize (Hm w); unfold exec, bind in *.
  destruct (m w) as [[a|e] w']; simpl in *; [|assumption].
  now rewrite <- Hm; apply Hk.
Qed.

Lemma keeps_speed_try_except {A} (m : M A) (h : exn -> M A) :
  keeps_speed m -> (forall e, keeps_speed (h e)) -> keeps_speed (try_except m h).
Proof.
  intros Hm Hh w; specialize (Hm w); unfold exec, try_except in *.
  destruct (m w) as [[a|e] w']; simpl in *; [assumption|].
  now rewrite <- Hm; apply Hh.
Qed.

Lemma keeps_speed_try_finally {A} (m : M A) (c : M unit) :
  keeps_speed m -> keeps_speed c -> keeps_speed (try_finally m c).
Proof.
  unfold keeps_speed, exec, try_finally; intros Hm Hc w; specialize (Hm w).
  destruct (m w) as [r w']; simpl in Hm.
  specialize (Hc w'); destruct (c w') as [[u|e] w'']; simpl in *; congruence.
Qed.

Lemma keeps_speed_py_get o key default : keeps_speed (py_get o key default).
Proof. destruct o; simpl; solve [apply keeps_speed_ret | apply keeps_speed_raise]. Qed.

Create HintDb frame.
#[export] Hint Resolve keeps_speed_ret keeps_speed_raise keeps_speed_lift
  keeps_speed_emit keeps_speed_print keeps_speed_set_motor_running
  keeps_speed_MOTOR_PIN1_write keeps_speed_MOTOR_PIN2_write
  keeps_speed_STATUS_LED_write keeps_speed_get_motor_running
  keeps_speed_get_motor_speed keeps_speed_py_get : frame.

(** Walks down binds, handlers and branches, closing leaves from [frame]. *)
Ltac frame_step :=
  match goal with
  | |- keeps_speed (bind _ _) => apply keeps_speed_bind; [|intros ?]
  | |- keeps_speed (try_except _ _) => apply keeps_speed_try_except; [|intros ?]
  | |- keeps_speed (try_finally _ _) => apply keeps_speed_try_finally
  | |- keeps_speed (if ?b then _ else _) => destruct b
  | |- keeps_speed (match ?x with _ => _ end) => destruct x
  | |- keeps_speed _ => solve [auto with frame]
  end.

Ltac frame := repeat frame_step.

Lemma keeps_speed_stop_motor : keeps_speed stop_motor.
Proof. unfold stop_motor; frame. Qed.

Lemma keeps_speed_start_motor : keeps_speed start_motor.
Proof. unfold start_motor; frame. Qed.

Lemma keeps_speed_setup_wifi : keeps_speed setup_wifi.
Proof. unfold setup_wifi; frame. Qed.

#[export] Hint Resolve keeps_speed_stop_motor keeps_speed_start_motor
  keeps_speed_setup_wifi : frame.

Section Properties.

Variable json_loads : string -> result pyobj.

Lemma keeps_speed_process_alarm_command data :
  keeps_speed (process_alarm_command json_loads data).
Proof. unfold process_alarm_command; frame. Qed.

Lemma keeps_speed_route_request method path body :
  keeps_speed (route_request json_loads method path body).
Proof.
  pose proof keeps_speed_process_alarm_command.
  unfold route_request; frame.
Qed.

Lemma keeps_speed_handle_request conn :
  keeps_speed (handle_request json_loads conn).
Proof.
  pose proof keeps_speed_route_request.
  unfold handle_request, handle_request_try; frame.
Qed.

Lemma keeps_speed_serve incoming : keeps_speed (serve json_loads incoming).
Proof.
  pose proof keeps_speed_handle_request.
  induction incoming as [|[conn|e|] rest IH]; simpl; frame.
Qed.

Lemma keeps_speed_main incoming : keeps_speed (main json_loads incoming).
Proof.
  pose proof keeps_speed_serve.
  unfold main; frame.
Qed.

(** ** Running the handlers *)

Lemma process_alarm_command_raise data e w :
  json_loads data = Raise e ->
  process_alarm_command json_loads data w
  = (Ok alarm_invalid, log w [Print (MsgAlarmError e)]).
Proof.
  intros H; unfold process_alarm_command, try_except, bind, lift.
  now rewrite H.
Qed.

Lemma process_alarm_command_not_dict data o w :
  json_loads data = Ok o ->
  (forall items, o <> PyDict items) ->
  process_alarm_command json_loads data w
  = (Ok alarm_invalid, log w [Print (MsgAlarmError AttributeError)]).
Proof.
  intros H Hd; unfold process_alarm_command, try_except, bind, lift.
  rewrite H; destruct o; try reflexivity.
  now destruct (Hd items).
Qed.

Lemma process_alarm_command_dict data items w :
  json_loads data = Ok (PyDict items) ->
  process_alarm_command json_loads data w
  = (Ok alarm_success,
     alarm_effect (get_or items "action" (PyStr ""))
                  (get_or items "enabled" (PyBool false)) w).
Proof.
  intros H; unfold process_alarm_command, try_except, bind, lift, alarm_effect.
  rewrite H; cbn [py_get ret]; fold (get_or items "action" (PyStr "")).
  fold (get_or items "enabled" (PyBool false)).
  rewrite print_run.
  destruct (in_strs _ _).
  - destruct (truthy _); [now rewrite start_motor_run | now rewrite stop_motor_run].
  - destruct (eq_str _ _); [now rewrite stop_motor_run | reflexivity].
Qed.

(** The handler on a request whose first line has three tokens: the request
    is logged, the route chain runs, and its response is framed, sent, and
    the connection closed. *)
Lemma handle_request_routed conn request method path version w :
  conn_recv conn = Ok request ->
  request_tokens request = [method; path; version] ->
  handle_request json_loads conn w
  = match route_request json_loads method path
            (request_body method (request_lines request))
            (log w [request_logged conn request]) with
    | (Ok rc, w1) =>
        (Ok tt, log w1 [Send (conn_id conn) (http_response (snd rc) (fst rc));
                        Close (conn_id conn)])
    | (Raise e, w1) =>
        (Ok tt, log w1 [Print (MsgHandlerError e); Close (conn_id conn)])
    end.
Proof.
  intros Hrecv Htok.
  unfold handle_request, try_finally, try_except, handle_request_try.
  unfold request_tokens in Htok; unfold request_lines in *.
  unfold bind at 1, lift at 1; rewrite Hrecv.
  unfold bind at 1; rewrite print_run; fold (request_logged conn request).
  destruct (split (ascii_of_nat 10) request) as [|request_line lines] eqn:E;
    [discriminate|].
  unfold bind at 1, lift at 1; rewrite Htok; cbn [unpack3 fst snd].
  unfold bind at 1.
  destruct (route_request _ _ _ _ _) as [[rc|e] w1].
  - rewrite !emit_run, log_log; reflexivity.
  - rewrite print_run, emit_run, log_log; reflexivity.
Qed.

(** The handler on a request whose first line does not have three tokens. *)
Lemma handle_request_malformed conn request w :
  conn_recv conn = Ok request ->
  length (request_tokens request) <> 3 ->
  handle_request_try json_loads conn w
  = (Raise ValueError, log w [request_logged conn request])
  /\ handle_request json_loads conn w
     = (Ok tt, log w [request_logged conn request;
                      Print (MsgHandlerError ValueError);
                      Close (conn_id conn)]).
Proof.
  intros Hrecv Htok.
  assert (Htry : handle_request_try json_loads conn w
                 = (Raise ValueError, log w [request_logged conn request])).
  { unfold handle_request_try.
    unfold request_tokens, request_lines in Htok.
    unfold bind at 1, lift at 1; rewrite Hrecv.
    unfold bind at 1; rewrite print_run; fold (request_logged conn request).
    destruct (split (ascii_of_nat 10) request) as [|request_line lines] eqn:E.
    - destruct request; simpl in E; [discriminate|].
      destruct (Ascii.eqb _ _); [discriminate|].
      destruct (split _ request); discriminate.
    - unfold bind at 1, lift at 1.
      destruct (split " " request_line) as [|a [|b [|c [|d l]]]];
        simpl in *; try reflexivity.
      now destruct Htok. }
  split; [exact Htry|].
  unfold handle_request, try_finally, try_except; rewrite Htry.
  now rewrite print_run, emit_run, !log_log.
Qed.

End Properties.

(** ** Locating the body *)

Lemma scan_body_find pre rest :
  scan_body (pre ++ rest) (length pre) rest
  = match find (blank_not_last (pre ++ rest)) (seq (length pre) (length rest)) with
    | Some i => nth (i + 1) (pre ++ rest) ""
    | None => ""
    end.
Proof.
  revert pre; induction rest as [|line rest IH]; intros pre; [reflexivity|].
  cbn [scan_body length seq find].
  assert (Hnth : nth (length pre) (pre ++ line :: rest) "" = line)
    by now rewrite nth_middle.
  assert (Hlast : (length pre <? length (pre ++ line :: rest) - 1)%nat
                  = negb (length pre =? length (pre ++ line :: rest) - 1)%nat).
  { rewrite length_app; cbn [length].
    destruct (Nat.ltb_spec (length pre) (length pre + S (length rest) - 1));
      destruct (Nat.eqb_spec (length pre) (length pre + S (length rest) - 1));
      simpl; trivial; lia. }
  unfold blank_not_last at 1; rewrite Hnth, Hlast.
  destruct (_ && _); [reflexivity|].
  specialize (IH (pre ++ [line])%list).
  rewrite <- app_assoc, length_app in IH; cbn [app length] in IH.
  now rewrite Nat.add_1_r in IH.
Qed.

Lemma scan_body_after_blank pre headers blank b more :
  forallb (fun l => negb (is_blank l)) headers = true ->
  is_blank blank = true ->
  scan_body (pre ++ headers ++ blank :: b :: more) (length pre)
            (headers ++ blank :: b :: more) = b.
Proof.
  intros Hh Hb; revert pre Hh.
  induction headers as [|h headers IH]; intros pre Hh; cbn [app scan_body].
  - unfold is_blank in Hb; rewrite Hb, length_app; cbn [length andb].
    replace (length pre <? length pre + S (S (length more)) - 1)%nat with true
      by (symmetry; apply Nat.ltb_lt; lia).
    rewrite Nat.add_1_r.
    change (blank :: b :: more) with ([blank] ++ b :: more)%list.
    rewrite app_assoc.
    replace (S (length pre)) with (length (pre ++ [blank])%list)
      by (rewrite length_app; simpl; lia).
    apply nth_middle.
  - cbn [forallb] in Hh; apply andb_prop in Hh as [Hn Hh].
    unfold is_blank in Hn; apply negb_true_iff in Hn; rewrite Hn; cbn [andb].
    specialize (IH (pre ++ [h])%list Hh).
    rewrite <- app_assoc, length_app in IH; cbn [app length] in IH.
    now rewrite Nat.add_1_r in IH.
Qed.

Lemma scan_body_no_blank pre lines last :
  forallb (fun l => negb (is_blank l)) lines = true ->
  scan_body (pre ++ lines ++ [last]) (length pre) (lines ++ [last]) = "".
Proof.
  intros Hh; revert pre Hh.
  induction lines as [|h lines IH]; intros pre Hh; cbn [app scan_body].
  - rewrite length_app; cbn [length].
    replace (length pre <? length pre + 1 - 1)%nat with false
      by (symmetry; apply Nat.ltb_ge; lia).
    now rewrite andb_false_r.
  - cbn [forallb] in Hh; apply andb_prop in Hh as [Hn Hh].
    unfold is_blank in Hn; apply negb_true_iff in Hn; rewrite Hn; cbn [andb].
    specialize (IH (pre ++ [h])%list Hh).
    rewrite <- app_assoc, length_app in IH; cbn [app length] in IH.
    now rewrite Nat.add_1_r in IH.
Qed.

(** ** The routes *)

(** Brings nested world updates to one and compares the traces. *)
Create Rewrite HintDb world.
#[export] Hint Rewrite log_log log_stopped_after log_started_after
  stopped_after_log started_after_log : world.

Ltac same_world :=
  autorewrite with world; rewrite <- ?app_assoc; reflexivity.

(** Decides the comparisons of the route chain on literal paths. *)
Ltac route_tests := cbn [String.eqb Ascii.eqb Bool.eqb andb].

Section Routes.

Variable json_loads : string -> result pyobj.

(** C2. A POST to [/alarm] whose body decodes to the toggle command with
    [enabled] true starts the motor (flag up, pin 1 high, pin 2 low,
    indicator on) and answers with the success body; a [/status] request
    handled next reports [motor_running] as true. *)
Theorem alarm_toggle_enabled_starts_motor :
  forall (alarm status : connection) (request1 request2 : string)
         (version1 method2 version2 : string) (w : world),
    conn_recv alarm = Ok request1 ->
    request_tokens request1 = ["POST"; "/alarm"; version1] ->
    request_body "POST" (request_lines request1) = toggle_enabled_body ->
    json_loads toggle_enabled_body = Ok toggle_enabled_dict ->
    conn_recv status = Ok request2 ->
    request_tokens request2 = [method2; "/status"; version2] ->
    let w1 := exec (handle_request json_loads alarm) w in
    let w2 := exec (handle_request json_loads status) w1 in
    w1 = started_after w
           ([request_logged alarm request1;
             Print (MsgProcessingAlarm (PyStr "toggle") (PyBool true))]
            ++ start_events
            ++ [Send (conn_id alarm)
                     (http_response "application/json" alarm_success);
                Close (conn_id alarm)])
    /\ motor_state w1 = (true, motor_speed w, (true, false, true))
    /\ alarm_success = "{" ++ q "status" ++ ": " ++ q "success" ++ "}"
    /\ w2 = log w1
              [request_logged status request2;
               Send (conn_id status)
                    (http_response "application/json"
                       ("{" ++ q "status" ++ ": " ++ q "online" ++ ", "
                            ++ q "motor_running" ++ ": true, "
                            ++ q "motor_speed" ++ ": "
                            ++ str_int (motor_speed w) ++ "}"));
               Close (conn_id status)].
Proof.
  intros alarm status request1 request2 version1 method2 version2 w
    Hr1 Ht1 Hb Hj Hr2 Ht2 w1 w2.
  assert (E1 : w1 = started_after w
           ([request_logged alarm request1;
             Print (MsgProcessingAlarm (PyStr "toggle") (PyBool true))]
            ++ start_events
            ++ [Send (conn_id alarm)
                     (http_response "application/json" alarm_success);
                Close (conn_id alarm)])).
  { subst w1; unfold exec.
    rewrite (handle_request_routed _ _ _ _ _ _ _ Hr1 Ht1), Hb.
    unfold route_request; route_tests.
    unfold bind at 1.
    rewrite (process_alarm_command_dict _ _ _ _ Hj).
    cbn -[http_response alarm_success start_events].
    same_world. }
  split; [exact E1|].
  split; [now rewrite E1|].
  split; [reflexivity|].
  subst w2; unfold exec.
  rewrite (handle_request_routed _ _ _ _ _ _ _ Hr2 Ht2).
  unfold route_request; route_tests.
  rewrite E1; cbn -[http_response str_int app]; same_world.
Qed.

(** C3. Whatever the motor state, a POST to [/alarm] whose body the decoder
    refuses answers with the invalid-data body and leaves the flag, the
    speed and the three pin levels as they were. *)
Theorem alarm_unparseable_body_rejected :
  forall (conn : connection) (request version : string) (e : exn) (w : world),
    conn_recv conn = Ok request ->
    request_tokens request = ["POST"; "/alarm"; version] ->
    json_loads (request_body "POST" (request_lines request)) = Raise e ->
    let w' := exec (handle_request json_loads conn) w in
    eval (handle_request json_loads conn) w = Ok tt
    /\ w' = log w [request_logged conn request;
                   Print (MsgAlarmError e);
                   Send (conn_id conn)
                        (http_response "application/json" alarm_invalid);
                   Close (conn_id conn)]
    /\ alarm_invalid = "{" ++ q "error" ++ ": " ++ q "Invalid data" ++ "}"
    /\ motor_state w' = motor_state w.
Proof.
  intros conn request version e w Hr Ht Hj w'.
  assert (E : handle_request json_loads conn w
              = (Ok tt, log w [request_logged conn request;
                               Print (MsgAlarmError e);
                               Send (conn_id conn)
                                    (http_response "application/json" alarm_invalid);
                               Close (conn_id conn)])).
  { rewrite (handle_request_routed _ _ _ _ _ _ _ Hr Ht).
    unfold route_request; route_tests.
    unfold bind at 1.
    rewrite (process_alarm_command_raise _ _ _ _ Hj).
    cbn -[http_response alarm_invalid]; same_world. }
  subst w'; unfold exec, eval; rewrite E; cbn [fst snd].
  repeat split.
Qed.

(** C4. With the flag down and the speed at 128, a request for [/status]
    is answered with exactly the body that reports a stopped motor at speed
    128, declared as [application/json]. *)
Theorem status_reports_stopped_motor :
  forall (conn : connection) (request method version : string) (w : world),
    conn_recv conn = Ok request ->
    request_tokens request = [method; "/status"; version] ->
    motor_running w = false ->
    motor_speed w = 128%Z ->
    handle_request json_loads conn w
    = (Ok tt,
       log w [request_logged conn request;
              Send (conn_id conn)
                   (http_response "application/json"
                      ("{" ++ q "status" ++ ": " ++ q "online" ++ ", "
                           ++ q "motor_running" ++ ": false, "
                           ++ q "motor_speed" ++ ": 128}"));
              Close (conn_id conn)]).
Proof.
  intros conn request method version w Hr Ht Hrun Hspeed.
  rewrite (handle_request_routed _ _ _ _ _ _ _ Hr Ht).
  unfold route_request; route_tests.
  unfold bind, get_motor_running, get_motor_speed, ret.
  cbn [motor_running motor_speed log]; rewrite Hrun, Hspeed.
  now rewrite log_log.
Qed.

(** C5. Whatever the state before, a POST to [/motor/stop] stops the motor
    and answers with the motor-stopped body.  Stopping is idempotent: on a
    world already stopped [stop_motor] leaves the motor state as it is, and
    every call makes the same writes, both control pins low and the
    indicator off. *)
Theorem motor_stop_route_idempotent :
  forall (conn : connection) (request version : string) (w : world),
    conn_recv conn = Ok request ->
    request_tokens request = ["POST"; "/motor/stop"; version] ->
    handle_request json_loads conn w
    = (Ok tt,
       stopped_after w
         ([request_logged conn request] ++ stop_events
          ++ [Send (conn_id conn)
                   (http_response "application/json" motor_stopped_json);
              Close (conn_id conn)]))
    /\ motor_stopped_json = "{" ++ q "status" ++ ": " ++ q "Motor stopped" ++ "}"
    /\ (forall w0, stop_motor w0 = (Ok tt, stopped_after w0 stop_events))
    /\ (forall w0, is_stopped w0 = true ->
                   motor_state (exec stop_motor w0) = motor_state w0)
    /\ (forall w0, is_stopped (exec stop_motor w0) = true)
    /\ (forall w0, motor_state (exec stop_motor (exec stop_motor w0))
                   = motor_state (exec stop_motor w0))
    /\ (forall w0, trace (exec stop_motor (exec stop_motor w0))
                   = (trace w0 ++ stop_events ++ stop_events)%list).
Proof.
  intros conn request version w Hr Ht.
  split.
  { rewrite (handle_request_routed _ _ _ _ _ _ _ Hr Ht).
    unfold route_request; route_tests.
    unfold bind at 1; rewrite stop_motor_run.
    cbn -[http_response motor_stopped_json stop_events].
    same_world. }
  split; [reflexivity|].
  split; [exact stop_motor_run|].
  split.
  { intros [r s p1 p2 led t]; unfold is_stopped, exec; rewrite stop_motor_run.
    cbn; intros H.
    destruct r, p1, p2, led; try discriminate; reflexivity. }
  split; [intros w0; unfold exec; now rewrite stop_motor_run|].
  split; intros w0; unfold exec; rewrite !stop_motor_run; cbn [snd].
  - reflexivity.
  - unfold stopped_after; cbn [trace]; now rewrite <- app_assoc.
Qed.

(** C6. A request with a three-token first line whose path and method match
    none of the five routes is answered with the not-found body, framed as
    [200 OK] with content type [application/json]; the motor state is left
    as it was. *)
Theorem unknown_route_answers_200_not_found :
  forall (conn : connection) (request method path version : string) (w : world),
    conn_recv conn = Ok request ->
    request_tokens request = [method; path; version] ->
    matches_route method path = false ->
    let w' := exec (handle_request json_loads conn) w in
    eval (handle_request json_loads conn) w = Ok tt
    /\ w' = log w [request_logged conn request;
                   Send (conn_id conn)
                        ("HTTP/1.1 200 OK" ++ nl
                         ++ "Content-Type: application/json" ++ nl
                         ++ "Content-Length: 22" ++ nl
                         ++ "Connection: close" ++ nl
                         ++ nl
                         ++ "{" ++ q "error" ++ ": " ++ q "Not found" ++ "}");
                   Close (conn_id conn)]
    /\ motor_state w' = motor_state w.
Proof.
  intros conn request method path version w Hr Ht Hm w'.
  unfold matches_route, routes, route_matches in Hm; cbn [existsb fst snd] in Hm.
  rewrite andb_true_r, orb_false_r in Hm.
  repeat (apply orb_false_elim in Hm as [? Hm]).
  assert (E : handle_request json_loads conn w
              = (Ok tt, log w [request_logged conn request;
                               Send (conn_id conn)
                                    (http_response "application/json" not_found_json);
                               Close (conn_id conn)])).
  { rewrite (handle_request_routed _ _ _ _ _ _ _ Hr Ht).
    unfold route_request.
    repeat match goal with H : _ = false |- _ => rewrite H; clear H end.
    cbn -[http_response not_found_json]; same_world. }
  subst w'; unfold exec, eval; rewrite E; cbn [fst snd].
  repeat split.
Qed.

(** C7. When the first line of a request does not split into exactly three
    tokens, the unpacking raises [ValueError] inside the handler, which
    catches it: the handler returns normally with nothing sent, the
    connection closed and the motor state as before, and the accept loop
    goes on with the connections that follow. *)
Theorem malformed_request_line_drops_connection :
  forall (conn : connection) (request : string) (w : world),
    conn_recv conn = Ok request ->
    length (request_tokens request) <> 3 ->
    let w' := exec (handle_request json_loads conn) w in
    eval (handle_request_try json_loads conn) w = Raise ValueError
    /\ eval (handle_request json_loads conn) w = Ok tt
    /\ w' = log w [request_logged conn request;
                   Print (MsgHandlerError ValueError);
                   Close (conn_id conn)]
    /\ motor_state w' = motor_state w
    /\ (forall rest, serve json_loads (Accepted conn :: rest) w
                     = serve json_loads rest w').
Proof.
  intros conn request w Hr Ht w'.
  destruct (handle_request_malformed json_loads conn request w Hr Ht) as [Etry E].
  subst w'; unfold exec, eval; rewrite Etry, E; cbn [fst snd].
  repeat split.
  intros rest; cbn [serve]; unfold bind at 1, try_except; now rewrite E.
Qed.

(** C8. No code path writes [motor_speed]: the two motor operations, the
    alarm command, the handling of any connection, the accept loop and the
    whole of [main] leave it as it was, so that from start-up it stays at
    its initial value 128. *)
Theorem motor_speed_never_mutated :
  (forall w, motor_speed (exec start_motor w) = motor_speed w)
  /\ (forall w, motor_speed (exec stop_motor w) = motor_speed w)
  /\ (forall data w,
        motor_speed (exec (process_alarm_command json_loads data) w)
        = motor_speed w)
  /\ (forall conn w, motor_speed (exec (handle_request json_loads conn) w) = motor_speed w)
  /\ (forall incoming w,
        motor_speed (exec (serve json_loads incoming) w) = motor_speed w)
  /\ (forall incoming pin1 pin2 led,
        motor_speed (exec (main json_loads incoming) (boot pin1 pin2 led))
        = 128%Z).
Proof.
  repeat apply conj; intros.
  - apply keeps_speed_start_motor.
  - apply keeps_speed_stop_motor.
  - apply keeps_speed_process_alarm_command.
  - apply keeps_speed_handle_request.
  - apply keeps_speed_serve.
  - now rewrite keeps_speed_main.
Qed.

(** C10. When the body of the alarm command decodes to a dict whose
    [action] is [add], [update] or [toggle] and which has no [enabled] key,
    [enabled] is taken as [False]: the command stops the motor (flag down,
    both control pins low, indicator off) and returns the success body. *)
Theorem alarm_without_enabled_stops_motor :
  forall (data : string) (items : list (string * pyobj)) (action : string)
         (w : world),
    json_loads data = Ok (PyDict items) ->
    dict_lookup items "action" = Some (PyStr action) ->
    In action ["add"; "update"; "toggle"] ->
    dict_lookup items "enabled" = None ->
    process_alarm_command json_loads data w
    = (Ok ("{" ++ q "status" ++ ": " ++ q "success" ++ "}"),
       stopped_after w
         (Print (MsgProcessingAlarm (PyStr action) (PyBool false))
          :: stop_events)).
Proof.
  intros data items action w Hj Ha Hin He.
  rewrite (process_alarm_command_dict _ _ _ _ Hj).
  unfold get_or; rewrite Ha, He; unfold alarm_effect.
  replace (in_strs (PyStr action) ["add"; "update"; "toggle"]) with true.
  - cbn [truthy]; now rewrite stopped_after_log.
  - symmetry; unfold in_strs, eq_str; cbn [existsb].
    cbn [In] in Hin; destruct Hin as [<-|[<-|[<-|[]]]]; reflexivity.
Qed.

End Routes.

(** ** The body of a POST request *)

(** C9. For a POST request the body handed to the route is the line that
    follows the first blank line that is not the last line, and the empty
    string when there is no such line; this is the text the alarm command
    receives.  Hence the line after the blank line that ends the headers is
    the whole body, whatever lines follow it, and a blank line in last
    position locates no body. *)
Theorem request_body_is_line_after_first_blank :
  (forall lines, request_body "POST" lines = body_spec lines)
  /\ (forall json_loads conn request version w,
        conn_recv conn = Ok request ->
        request_tokens request = ["POST"; "/alarm"; version] ->
        handle_request json_loads conn w
        = match process_alarm_command json_loads
                  (body_spec (request_lines request))
                  (log w [request_logged conn request]) with
          | (Ok response, w1) =>
              (Ok tt,
               log w1 [Send (conn_id conn)
                            (http_response "application/json" response);
                       Close (conn_id conn)])
          | (Raise e, w1) =>
              (Ok tt, log w1 [Print (MsgHandlerError e); Close (conn_id conn)])
          end)
  /\ (forall headers blank b more,
        forallb (fun l => negb (is_blank l)) headers = true ->
        is_blank blank = true ->
        request_body "POST" (headers ++ blank :: b :: more) = b)
  /\ (forall lines last,
        forallb (fun l => negb (is_blank l)) lines = true ->
        request_body "POST" (lines ++ [last]) = "").
Proof.
  assert (Hspec : forall lines, request_body "POST" lines = body_spec lines).
  { intros lines; unfold request_body, body_spec; route_tests.
    exact (scan_body_find [] lines). }
  repeat apply conj.
  - exact Hspec.
  - intros json_loads conn request version w Hr Ht.
    rewrite (handle_request_routed _ _ _ _ _ _ _ Hr Ht), Hspec.
    unfold route_request; route_tests.
    unfold bind at 1.
    now destruct (process_alarm_command _ _ _) as [[response|e] w1].
  - intros headers blank b more Hh Hb.
    exact (scan_body_after_blank [] headers blank b more Hh Hb).
  - intros lines last Hh.
    exact (scan_body_no_blank [] lines last Hh).
Qed.

(** ** The theorems at sample requests *)

Lemma alarm_toggle_enabled_starts_motor_sample :
  request_tokens (Samples.post "/alarm" toggle_enabled_body)
  = ["POST"; "/alarm"; "HTTP/1.1" ++ Samples.cr]
  /\ RefJson.loads toggle_enabled_body = Ok toggle_enabled_dict
  /\ motor_state (exec (handle_request RefJson.loads Samples.alarm_toggle_on)
                       (boot false false false))
     = (true, 128%Z, (true, false, true)).
Proof.
  assert (Ht : request_tokens (Samples.post "/alarm" toggle_enabled_body)
               = ["POST"; "/alarm"; "HTTP/1.1" ++ Samples.cr]) by reflexivity.
  assert (Hj : RefJson.loads toggle_enabled_body = Ok toggle_enabled_dict)
    by reflexivity.
  split; [exact Ht|]; split; [exact Hj|].
  exact (proj1 (proj2
    (alarm_toggle_enabled_starts_motor RefJson.loads
       Samples.alarm_toggle_on Samples.status_query
       (Samples.post "/alarm" toggle_enabled_body) (Samples.get "/status")
       ("HTTP/1.1" ++ Samples.cr) "GET" ("HTTP/1.1" ++ Samples.cr)
       (boot false false false)
       eq_refl Ht eq_refl Hj eq_refl eq_refl))).
Defined.

Lemma alarm_unparseable_body_rejected_sample :
  RefJson.loads
    (request_body "POST" (request_lines (Samples.post "/alarm" "not json")))
  = Raise ValueError
  /\ motor_state (exec (handle_request RefJson.loads Samples.alarm_garbage)
                       Samples.running_world)
     = motor_state Samples.running_world.
Proof.
  assert (Hj : RefJson.loads
                 (request_body "POST"
                    (request_lines (Samples.post "/alarm" "not json")))
               = Raise ValueError) by reflexivity.
  split; [exact Hj|].
  exact (proj2 (proj2 (proj2
    (alarm_unparseable_body_rejected RefJson.loads Samples.alarm_garbage
       (Samples.post "/alarm" "not json") ("HTTP/1.1" ++ Samples.cr)
       ValueError Samples.running_world eq_refl eq_refl Hj)))).
Defined.

Lemma status_reports_stopped_motor_sample :
  motor_running (boot true false true) = false
  /\ motor_speed (boot true false true) = 128%Z
  /\ eval (handle_request RefJson.loads Samples.status_query)
          (boot true false true) = Ok tt.
Proof.
  split; [reflexivity|]; split; [reflexivity|].
  unfold eval.
  rewrite (status_reports_stopped_motor RefJson.loads Samples.status_query
             (Samples.get "/status") "GET" ("HTTP/1.1" ++ Samples.cr)
             (boot true false true) eq_refl eq_refl eq_refl eq_refl).
  reflexivity.
Defined.

Lemma motor_stop_route_idempotent_sample :
  request_tokens (Samples.post "/motor/stop" "")
  = ["POST"; "/motor/stop"; "HTTP/1.1" ++ Samples.cr]
  /\ motor_state (exec (handle_request RefJson.loads Samples.stop_request)
                       Samples.running_world)
     = (false, 128%Z, (false, false, false)).
Proof.
  split; [reflexivity|].
  unfold exec.
  rewrite (proj1 (motor_stop_route_idempotent RefJson.loads Samples.stop_request
             (Samples.post "/motor/stop" "") ("HTTP/1.1" ++ Samples.cr)
             Samples.running_world eq_refl eq_refl)).
  reflexivity.
Defined.

Lemma unknown_route_answers_200_not_found_sample :
  matches_route "GET" "/unknown/path" = false
  /\ motor_state (exec (handle_request RefJson.loads Samples.unknown_path)
                       Samples.running_world)
     = motor_state Samples.running_world.
Proof.
  split; [reflexivity|].
  exact (proj2 (proj2
    (unknown_route_answers_200_not_found RefJson.loads Samples.unknown_path
       (Samples.get "/unknown/path") "GET" "/unknown/path"
       ("HTTP/1.1" ++ Samples.cr) Samples.running_world
       eq_refl eq_refl eq_refl))).
Defined.

Lemma malformed_request_line_drops_connection_sample :
  length (request_tokens ("GET /status" ++ Samples.crlf ++ Samples.crlf)) = 2
  /\ eval (handle_request RefJson.loads Samples.no_version)
          Samples.running_world = Ok tt.
Proof.
  split; [reflexivity|].
  refine (proj1 (proj2
    (malformed_request_line_drops_connection RefJson.loads Samples.no_version
       ("GET /status" ++ Samples.crlf ++ Samples.crlf)
       Samples.running_world eq_refl _))).
  vm_compute; intros H; discriminate H.
Defined.

Lemma request_body_is_line_after_first_blank_sample :
  request_body "POST" Samples.two_line_body = "{" ++ q "action" ++ ":".
Proof.
  refine (proj1 (proj2 (proj2 request_body_is_line_after_first_blank))
            ["POST /alarm HTTP/1.1" ++ Samples.cr;
             "Host: 192.168.4.1" ++ Samples.cr]
            Samples.cr ("{" ++ q "action" ++ ":") [q "toggle" ++ "}"] _ _);
    reflexivity.
Defined.

Lemma alarm_without_enabled_stops_motor_sample :
  RefJson.loads Samples.add_body = Ok (PyDict [("action", PyStr "add")])
  /\ motor_state (exec (process_alarm_command RefJson.loads Samples.add_body)
                       Samples.running_world)
     = (false, 128%Z, (false, false, false)).
Proof.
  assert (Hj : RefJson.loads Samples.add_body
               = Ok (PyDict [("action", PyStr "add")])) by reflexivity.
  split; [exact Hj|].
  unfold exec.
  rewrite (alarm_without_enabled_stops_motor RefJson.loads Samples.add_body
             [("action", PyStr "add")] "add" Samples.running_world
             Hj eq_refl (or_introl eq_refl) eq_refl).
  reflexivity.
Defined.

(** ** More on the alarm command *)

Section AlarmCommand.

Variable json_loads : string -> result pyobj.

Lemma process_alarm_command_no_dict data o w :
  json_loads data = Ok o ->
  is_dict o = false ->
  process_alarm_command json_loads data w
  = (Ok alarm_invalid, log w [Print (MsgAlarmError AttributeError)]).
Proof.
  intros Hj Hd; apply (process_alarm_command_not_dict _ _ _ _ Hj).
  intros items ->; discriminate Hd.
Qed.

(** X1. A dict whose [action] is [delete] stops the motor whatever its
    [enabled] entry says, and the command returns the success body. *)
Theorem alarm_delete_stops_motor :
  forall (data : string) (items : list (string * pyobj)) (w : world),
    json_loads data = Ok (PyDict items) ->
    dict_lookup items "action" = Some (PyStr "delete") ->
    process_alarm_command json_loads data w
    = (Ok alarm_success,
       stopped_after w
         (Print (MsgProcessingAlarm (PyStr "delete")
                   (get_or items "enabled" (PyBool false)))
          :: stop_events)).
Proof.
  intros data items w Hj Ha.
  rewrite (process_alarm_command_dict _ _ _ _ Hj).
  unfold get_or at 1; rewrite Ha; unfold alarm_effect.
  change (in_strs (PyStr "delete") ["add"; "update"; "toggle"]) with false.
  change (eq_str (PyStr "delete") "delete") with true.
  cbv iota; now rewrite stopped_after_log.
Qed.

(** X2. A dict whose [action] is none of [add], [update], [toggle] and
    [delete] (a missing [action] counts as the empty string, a value that
    is not a string matches nothing) leaves the motor alone: the command
    only logs and returns the success body. *)
Theorem alarm_unknown_action_is_noop :
  forall (data : string) (items : list (string * pyobj)) (w : world),
    json_loads data = Ok (PyDict items) ->
    in_strs (get_or items "action" (PyStr ""))
            ["add"; "update"; "toggle"; "delete"] = false ->
    process_alarm_command json_loads data w
    = (Ok alarm_success,
       log w [Print (MsgProcessingAlarm
                       (get_or items "action" (PyStr ""))
                       (get_or items "enabled" (PyBool false)))]).
Proof.
  intros data items w Hj Ha.
  rewrite (process_alarm_command_dict _ _ _ _ Hj); unfold alarm_effect.
  unfold in_strs in *; cbn [existsb] in *.
  repeat (apply orb_false_elim in Ha as [? Ha]).
  repeat match goal with H : eq_str _ _ = false |- _ => rewrite H; clear H end.
  reflexivity.
Qed.

(** X3. When the body decodes to something that is not a dict (a list, a
    number, a string, a literal), looking up [action] fails inside the
    [try]: the command answers with the invalid-data body and the world
    only gains the log line. *)
Theorem alarm_non_dict_rejected :
  forall (conn : connection) (request version : string) (o : pyobj) (w : world),
    conn_recv conn = Ok request ->
    request_tokens request = ["POST"; "/alarm"; version] ->
    json_loads (request_body "POST" (request_lines request)) = Ok o ->
    is_dict o = false ->
    handle_request json_loads conn w
    = (Ok tt,
       log w [request_logged conn request;
              Print (MsgAlarmError AttributeError);
              Send (conn_id conn)
                   (http_response "application/json" alarm_invalid);
              Close (conn_id conn)]).
Proof.
  intros conn request version o w Hr Ht Hj Hd.
  rewrite (handle_request_routed _ _ _ _ _ _ _ Hr Ht).
  unfold route_request; route_tests.
  unfold bind at 1.
  rewrite (process_alarm_command_no_dict _ _ _ Hj Hd).
  cbn -[http_response alarm_invalid]; same_world.
Qed.

(** X4. For [add], [update] and [toggle] the motor follows the truth value
    of the [enabled] entry, whatever its type: running, pin 1 and the
    indicator all become [truthy enabled], pin 2 goes low.  A non-empty
    string such as the text false therefore starts the motor. *)
Theorem alarm_follows_truth_value_of_enabled :
  forall (data : string) (items : list (string * pyobj)) (action : string)
         (enabled : pyobj) (w : world),
    json_loads data = Ok (PyDict items) ->
    dict_lookup items "action" = Some (PyStr action) ->
    In action ["add"; "update"; "toggle"] ->
    dict_lookup items "enabled" = Some enabled ->
    eval (process_alarm_command json_loads data) w = Ok alarm_success
    /\ motor_state (exec (process_alarm_command json_loads data) w)
       = (truthy enabled, motor_speed w,
          (truthy enabled, false, truthy enabled)).
Proof.
  intros data items action enabled w Hj Ha Hin He.
  unfold eval, exec; rewrite (process_alarm_command_dict _ _ _ _ Hj).
  unfold get_or; rewrite Ha, He; unfold alarm_effect.
  replace (in_strs (PyStr action) ["add"; "update"; "toggle"]) with true.
  - split; [reflexivity|]; now destruct (truthy enabled).
  - symmetry; unfold in_strs, eq_str; cbn [existsb].
    cbn [In] in Hin; destruct Hin as [<-|[<-|[<-|[]]]]; reflexivity.
Qed.

(** X5. The alarm command never lets an exception out, and its answer
    tells exactly whether the decoder produced a dict: the success body if
    it did, the invalid-data body if it raised or produced anything else. *)
Theorem alarm_answer_tells_dict :
  forall (data : string) (w : world),
    eval (process_alarm_command json_loads data) w
    = Ok (if decodes_to_dict (json_loads data)
          then alarm_success else alarm_invalid).
Proof.
  intros data w; unfold eval.
  destruct (json_loads data) as [o|e] eqn:Hj.
  - destruct (is_dict o) eqn:Hd; cbn [decodes_to_dict]; rewrite Hd.
    + destruct o; try discriminate Hd.
      now rewrite (process_alarm_command_dict _ _ _ _ Hj).
    + now rewrite (process_alarm_command_no_dict _ _ _ Hj Hd).
  - now rewrite (process_alarm_command_raise _ _ _ _ Hj).
Qed.

End AlarmCommand.

(** ** More on the routes *)

Section MoreRoutes.

Variable json_loads : string -> result pyobj.

Lemma handle_request_recv_failed conn e w :
  conn_recv conn = Raise e ->
  handle_request json_loads conn w
  = (Ok tt, log w [Print (MsgHandlerError e); Close (conn_id conn)]).
Proof.
  intros Hr.
  unfold handle_request, try_finally, try_except, handle_request_try.
  unfold bind at 1, lift at 1; rewrite Hr.
  now rewrite print_run, emit_run, log_log.
Qed.

Lemma handle_request_ok conn w :
  eval (handle_request json_loads conn) w = Ok tt.
Proof.
  unfold eval, handle_request, try_finally, try_except.
  destruct (handle_request_try json_loads conn w) as [[[]|e] w1];
    [|rewrite print_run]; now rewrite emit_run.
Qed.

Lemma serve_accepted conn rest w :
  serve json_loads (Accepted conn :: rest) w
  = serve json_loads rest (exec (handle_request json_loads conn) w).
Proof.
  cbn [serve]; unfold bind at 1, try_except, exec.
  pose proof (handle_request_ok conn w) as H; unfold eval in H.
  destruct (handle_request json_loads conn w) as [r w1]; cbn [fst snd] in *.
  now rewrite H.
Qed.

(** X6. When reading or decoding the request fails, the handler logs the
    error, sends nothing, closes the connection and returns; the motor is
    untouched and the accept loop goes on with the next connection. *)
Theorem receive_failure_drops_connection :
  forall (conn : connection) (e : exn) (w : world),
    conn_recv conn = Raise e ->
    handle_request json_loads conn w
    = (Ok tt, log w [Print (MsgHandlerError e); Close (conn_id conn)])
    /\ (forall rest,
          serve json_loads (Accepted conn :: rest) w
          = serve json_loads rest
              (log w [Print (MsgHandlerError e); Close (conn_id conn)])).
Proof.
  intros conn e w Hr; split; [now apply handle_request_recv_failed|].
  intros rest; rewrite serve_accepted; unfold exec.
  now rewrite (handle_request_recv_failed _ _ _ Hr).
Qed.

(** X7. Whatever the state before, a POST to [/motor/start] starts the
    motor (flag up, pin 1 high, pin 2 low, indicator on) and answers with
    the motor-started body. *)
Theorem motor_start_route_starts_motor :
  forall (conn : connection) (request version : string) (w : world),
    conn_recv conn = Ok request ->
    request_tokens request = ["POST"; "/motor/start"; version] ->
    handle_request json_loads conn w
    = (Ok tt,
       started_after w
         ([request_logged conn request] ++ start_events
          ++ [Send (conn_id conn)
                   (http_response "application/json"
                      ("{" ++ q "status" ++ ": " ++ q "Motor started" ++ "}"));
              Close (conn_id conn)])).
Proof.
  intros conn request version w Hr Ht.
  rewrite (handle_request_routed _ _ _ _ _ _ _ Hr Ht).
  unfold route_request; route_tests.
  unfold bind at 1; rewrite start_motor_run.
  cbn -[http_response start_events].
  same_world.
Qed.

(** X8. A request for [/status] is answered with the current flag and
    speed whatever the method, and changes nothing: the path is tested
    before any method, so even a POST carrying an alarm command is only a
    status query. *)
Theorem status_route_reports_and_keeps_state :
  forall (conn : connection) (request method version : string) (w : world),
    conn_recv conn = Ok request ->
    request_tokens request = [method; "/status"; version] ->
    handle_request json_loads conn w
    = (Ok tt,
       log w [request_logged conn request;
              Send (conn_id conn)
                   (http_response "application/json"
                      ("{" ++ q "status" ++ ": " ++ q "online" ++ ", "
                           ++ q "motor_running" ++ ": "
                           ++ (if motor_running w then "true" else "false")
                           ++ ", " ++ q "motor_speed" ++ ": "
                           ++ str_int (motor_speed w) ++ "}"));
              Close (conn_id conn)]).
Proof.
  intros conn request method version w Hr Ht.
  rewrite (handle_request_routed _ _ _ _ _ _ _ Hr Ht).
  unfold route_request; route_tests.
  unfold bind, get_motor_running, get_motor_speed, ret.
  cbn [motor_running motor_speed log]; rewrite log_log.
  now destruct (motor_running w).
Qed.


(** X10. Only a POST to [/alarm], [/motor/start] or [/motor/stop] can
    change the motor: handling any other connection (another method,
    another path, a malformed first line, a failed read) leaves the flag,
    the speed and the three pin levels as they were. *)
Theorem only_actuating_posts_change_motor :
  forall (conn : connection) (w : world),
    may_actuate conn = false ->
    motor_state (exec (handle_request json_loads conn) w) = motor_state w.
Proof.
  intros conn w H; unfold may_actuate in H; unfold exec.
  destruct (conn_recv conn) as [request|e] eqn:Hr.
  2: now rewrite (handle_request_recv_failed _ _ _ Hr).
  destruct (request_tokens request) as [|method [|path [|version [|x l]]]] eqn:Ht.
  1,2,3,5:
    now rewrite (proj2 (handle_request_malformed json_loads conn request w Hr
                          ltac:(rewrite Ht; cbn [length]; lia))).
  rewrite (handle_request_routed _ _ _ _ _ _ _ Hr Ht).
  unfold route_request.
  destruct (path =? "/status"); [reflexivity|].
  destruct (path =? "/alarm"), (path =? "/motor/start"),
    (path =? "/motor/stop"), (method =? "POST");
    cbn [andb orb] in *; try discriminate H;
    destruct (path =? "/"); reflexivity.
Qed.

End MoreRoutes.

(** ** Computations that return, and what they add to the trace *)

Lemma returns_ret {A} (a : A) : returns (ret a).
Proof. intros w; now exists a. Qed.

Lemma returns_emit e : returns (emit e).
Proof. intros w; now exists tt. Qed.

Lemma returns_print msg : returns (print msg).
Proof. intros w; now exists tt. Qed.

Lemma returns_get_motor_running : returns get_motor_running.
Proof. intros w; now exists (motor_running w). Qed.

Lemma returns_get_motor_speed : returns get_motor_speed.
Proof. intros w; now exists (motor_speed w). Qed.

Lemma returns_stop_motor : returns stop_motor.
Proof. intros w; exists tt; unfold eval; now rewrite stop_motor_run. Qed.

Lemma returns_start_motor : returns start_motor.
Proof. intros w; exists tt; unfold eval; now rewrite start_motor_run. Qed.

Lemma returns_bind {A B} (m : M A) (k : A -> M B) :
  returns m -> (forall a, returns (k a)) -> returns (bind m k).
Proof.
  intros Hm Hk w; destruct (Hm w) as [a Ha]; unfold eval, bind in *.
  destruct (m w) as [r w']; cbn [fst] in Ha; subst r.
  apply (Hk a w').
Qed.

Lemma returns_try_except {A} (m : M A) (h : exn -> M A) :
  (forall e, returns (h e)) -> returns (try_except m h).
Proof.
  intros Hh w; unfold eval, try_except.
  destruct (m w) as [[a|e] w']; [now exists a|apply (Hh e w')].
Qed.

Create HintDb returning.
#[export] Hint Resolve returns_ret returns_emit returns_print
  returns_get_motor_running returns_get_motor_speed returns_stop_motor
  returns_start_motor : returning.

Ltac returning_step :=
  match goal with
  | |- returns _ => solve [auto with returning]
  | |- returns (bind _ _) => apply returns_bind; [|intros ?]
  | |- returns (try_except _ _) => apply returns_try_except; intros ?
  | |- returns (if ?b then _ else _) => destruct b
  end.

Ltac returning := repeat returning_step.

Lemma emits_nothing {A} (P : event -> bool) (m : M A) :
  (forall w, trace (exec m w) = trace w) -> emits P m.
Proof. intros H w; exists []; now rewrite H, app_nil_r. Qed.

Lemma emits_ret {A} P (a : A) : emits P (ret a).
Proof. now apply emits_nothing. Qed.

Lemma emits_raise {A} P e : emits P (@raise A e).
Proof. now apply emits_nothing. Qed.

Lemma emits_lift {A} P (r : result A) : emits P (lift r).
Proof. now apply emits_nothing. Qed.

Lemma emits_get_motor_running P : emits P get_motor_running.
Proof. now apply emits_nothing. Qed.

Lemma emits_get_motor_speed P : emits P get_motor_speed.
Proof. now apply emits_nothing. Qed.

Lemma emits_py_get P o key default : emits P (py_get o key default).
Proof. apply emits_nothing; now destruct o. Qed.

Lemma emits_emit (P : event -> bool) e : P e = true -> emits P (emit e).
Proof. intros H w; exists [e]; cbn; now rewrite H. Qed.

Lemma emits_print (P : event -> bool) msg :
  P (Print msg) = true -> emits P (print msg).
Proof. apply emits_emit. Qed.

Lemma emits_bind {A B} P (m : M A) (k : A -> M B) :
  emits P m -> (forall a, emits P (k a)) -> emits P (bind m k).
Proof.
  intros Hm Hk w; destruct (Hm w) as [es [E F]]; unfold exec, bind in *.
  destruct (m w) as [[a|e] w']; cbn [snd] in E; [|now exists es].
  destruct (Hk a w') as [es' [E' F']]; unfold exec in E'.
  exists (es ++ es')%list; rewrite E', E, app_assoc, forallb_app, F, F'.
  now split.
Qed.

Lemma emits_try_except {A} P (m : M A) (h : exn -> M A) :
  emits P m -> (forall e, emits P (h e)) -> emits P (try_except m h).
Proof.
  intros Hm Hh w; destruct (Hm w) as [es [E F]]; unfold exec, try_except in *.
  destruct (m w) as [[a|e] w']; cbn [snd] in E; [now exists es|].
  destruct (Hh e w') as [es' [E' F']]; unfold exec in E'.
  exists (es ++ es')%list; rewrite E', E, app_assoc, forallb_app, F, F'.
  now split.
Qed.

Lemma emits_try_finally {A} P (m : M A) (c : M unit) :
  emits P m -> emits P c -> emits P (try_finally m c).
Proof.
  intros Hm Hc w; destruct (Hm w) as [es [E F]]; unfold exec, try_finally in *.
  destruct (m w) as [r w']; cbn [snd] in E.
  destruct (Hc w') as [es' [E' F']]; unfold exec in E'.
  exists (es ++ es')%list; rewrite app_assoc, forallb_app, F, F', <- E.
  destruct (c w') as [[u|e] w'']; cbn [snd] in *; now split.
Qed.

Lemma emits_weaken {A} (P Q : event -> bool) (m : M A) :
  (forall e, P e = true -> Q e = true) -> emits P m -> emits Q m.
Proof.
  intros HPQ Hm w; destruct (Hm w) as [es [E F]]; exists es; split; [exact E|].
  rewrite forallb_forall in *; auto.
Qed.

Lemma emits_stop_motor (P : event -> bool) :
  forallb P stop_events = true -> emits P stop_motor.
Proof.
  intros H w; exists stop_events; unfold exec; now rewrite stop_motor_run.
Qed.

Lemma emits_start_motor (P : event -> bool) :
  forallb P start_events = true -> emits P start_motor.
Proof.
  intros H w; exists start_events; unfold exec; now rewrite start_motor_run.
Qed.

(** Walks down a computation; the leaves that emit leave [P e = true]. *)
Ltac emitting_step :=
  match goal with
  | |- emits _ (bind _ _) => apply emits_bind; [|intros ?]
  | |- emits _ (try_except _ _) => apply emits_try_except; [|intros ?]
  | |- emits _ (try_finally _ _) => apply emits_try_finally
  | |- emits _ (ret _) => apply emits_ret
  | |- emits _ (raise _) => apply emits_raise
  | |- emits _ (lift _) => apply emits_lift
  | |- emits _ get_motor_running => apply emits_get_motor_running
  | |- emits _ get_motor_speed => apply emits_get_motor_speed
  | |- emits _ (py_get _ _ _) => apply emits_py_get
  | |- emits _ stop_motor => apply emits_stop_motor
  | |- emits _ start_motor => apply emits_start_motor
  | |- emits _ (print _) => apply emits_print
  | |- emits _ (emit _) => apply emits_emit
  | |- emits _ (if ?b then _ else _) => destruct b
  | |- emits _ (match ?x with _ => _ end) => destruct x
  end.

Ltac emitting := repeat emitting_step.


Lemma status_line_prefix content_type response :
  String.prefix status_line (http_response content_type response) = true.
Proof. reflexivity. Qed.

Section Traffic.

Variable json_loads : string -> result pyobj.



Lemma emits_process_alarm_command (P : event -> bool) data :
  (forall msg, P (Print msg) = true) ->
  forallb P stop_events = true ->
  forallb P start_events = true ->
  emits P (process_alarm_command json_loads data).
Proof. intros; unfold process_alarm_command; emitting; auto. Qed.

Lemma emits_route_request (P : event -> bool) method path body :
  (forall msg, P (Print msg) = true) ->
  forallb P stop_events = true ->
  forallb P start_events = true ->
  emits P (route_request json_loads method path body).
Proof.
  intros; pose proof (emits_process_alarm_command P).
  unfold route_request; emitting; auto.
Qed.

Lemma emits_handle_request conn :
  emits (handler_event (conn_id conn)) (handle_request json_loads conn).
Proof.
  unfold handle_request, handle_request_try; emitting;
    try reflexivity;
    try (apply emits_route_request; intros; reflexivity);
    cbn [handler_event]; rewrite Nat.eqb_refl; reflexivity.
Qed.

End Traffic.

(** ** Invariants of the world *)

Lemma preserves_bind {A B} I (m : M A) (k : A -> M B) :
  preserves I m -> (forall a, preserves I (k a)) -> preserves I (bind m k).
Proof.
  intros Hm Hk w Hw; specialize (Hm w Hw); unfold exec, bind in *.
  destruct (m w) as [[a|e] w']; cbn [snd] in *; [apply (Hk a w' Hm)|exact Hm].
Qed.

Lemma preserves_try_except {A} I (m : M A) (h : exn -> M A) :
  preserves I m -> (forall e, preserves I (h e)) -> preserves I (try_except m h).
Proof.
  intros Hm Hh w Hw; specialize (Hm w Hw); unfold exec, try_except in *.
  destruct (m w) as [[a|e] w']; cbn [snd] in *; [exact Hm|apply (Hh e w' Hm)].
Qed.

Lemma preserves_try_finally {A} I (m : M A) (c : M unit) :
  preserves I m -> preserves I c -> preserves I (try_finally m c).
Proof.
  intros Hm Hc w Hw; specialize (Hm w Hw); unfold exec, try_finally in *.
  destruct (m w) as [r w']; cbn [snd] in *.
  specialize (Hc w' Hm); unfold exec in Hc.
  now destruct (c w') as [[u|e] w''].
Qed.

Lemma preserves_pins_same_motor {A} (m : M A) :
  (forall w, motor_state (exec m w) = motor_state w) ->
  preserves pins_consistent m.
Proof.
  intros H w Hw; specialize (H w); unfold motor_state in H.
  injection H as H1 _ H3 H4 H5; unfold pins_consistent.
  now rewrite H1, H3, H4, H5.
Qed.

Lemma preserves_pins_stop_motor : preserves pins_consistent stop_motor.
Proof. intros w _; unfold exec; now rewrite stop_motor_run. Qed.

Lemma preserves_pins_start_motor : preserves pins_consistent start_motor.
Proof. intros w _; unfold exec; now rewrite start_motor_run. Qed.

Lemma preserves_pins_py_get o key default :
  preserves pins_consistent (py_get o key default).
Proof. apply preserves_pins_same_motor; intros w; now destruct o. Qed.

Ltac invariant_step :=
  match goal with
  | |- preserves _ (py_get _ _ _) => apply preserves_pins_py_get
  | |- preserves _ stop_motor => apply preserves_pins_stop_motor
  | |- preserves _ start_motor => apply preserves_pins_start_motor
  | |- preserves _ (bind _ _) => apply preserves_bind; [|intros ?]
  | |- preserves _ (try_except _ _) => apply preserves_try_except; [|intros ?]
  | |- preserves _ (try_finally _ _) => apply preserves_try_finally
  | |- preserves _ (if ?b then _ else _) => destruct b
  | |- preserves _ (match ?x with _ => _ end) => destruct x
  | |- preserves pins_consistent _ =>
      solve [apply preserves_pins_same_motor; intros ?; reflexivity]
  end.

Ltac invariant := repeat invariant_step.

Lemma setup_wifi_run w :
  setup_wifi w
  = (Ok tt, log w [ApConfig "ESP32-Motor" "12345678";
                   Print (MsgText "WiFi hotspot created:");
                   Print (MsgText "SSID: ESP32-Motor");
                   Print (MsgText "Password: 12345678");
                   Print (MsgText "IP: 192.168.4.1")]).
Proof.
  unfold setup_wifi, bind, print; rewrite !emit_run, !log_log; reflexivity.
Qed.

Lemma handler_event_server_event id e :
  handler_event id e = true -> server_event e = true.
Proof.
  destruct e; cbn; try discriminate; trivial.
  intros H; now apply andb_prop in H as [_ H].
Qed.

Section Loop.

Variable json_loads : string -> result pyobj.

Lemma preserves_pins_process_alarm_command data :
  preserves pins_consistent (process_alarm_command json_loads data).
Proof.
  unfold process_alarm_command; invariant.
Qed.

Lemma preserves_pins_handle_request conn :
  preserves pins_consistent (handle_request json_loads conn).
Proof.
  pose proof preserves_pins_process_alarm_command.
  unfold handle_request, handle_request_try, route_request; invariant; auto.
Qed.

Lemma serve_accept_error e rest w :
  serve json_loads (AcceptError e :: rest) w
  = serve json_loads rest (log w [Print (MsgServerError e); Sleep 1]).
Proof.
  cbn [serve]; unfold bind at 1; rewrite print_run.
  unfold bind at 1; now rewrite emit_run, log_log.
Qed.

Lemma serve_interrupted rest w :
  serve json_loads (KeyboardInterrupt :: rest) w
  = (Ok true, log w [Print (MsgText "Shutting down...")]).
Proof. reflexivity. Qed.

Lemma serve_eval incoming w :
  eval (serve json_loads incoming) w = Ok (existsb is_interrupt incoming).
Proof.
  revert w; induction incoming as [|[conn|e|] rest IH]; intros w; unfold eval.
  - reflexivity.
  - rewrite serve_accepted; apply IH.
  - rewrite serve_accept_error; apply IH.
  - reflexivity.
Qed.

Lemma preserves_pins_serve incoming :
  preserves pins_consistent (serve json_loads incoming).
Proof.
  induction incoming as [|[conn|e|] rest IH]; intros w Hw; unfold exec.
  - exact Hw.
  - rewrite serve_accepted; apply IH, preserves_pins_handle_request, Hw.
  - rewrite serve_accept_error; apply IH, Hw.
  - exact Hw.
Qed.

Lemma emits_serve incoming : emits server_event (serve json_loads incoming).
Proof.
  induction incoming as [|[conn|e|] rest IH]; cbn [serve]; emitting;
    try reflexivity; try exact IH.
  eapply emits_weaken;
    [apply handler_event_server_event|apply emits_handle_request].
Qed.

Lemma main_run incoming w :
  main json_loads incoming w
  = match serve json_loads incoming (stopped_after w startup_events) with
    | (Ok true, w1) => (Ok tt, log w1 [ServerClose])
    | (Ok false, w1) => (Ok tt, w1)
    | (Raise e, w1) => (Raise e, w1)
    end.
Proof.
  unfold main.
  unfold bind at 1; rewrite print_run.
  unfold bind at 1; rewrite stop_motor_run.
  unfold bind at 1; rewrite setup_wifi_run.
  unfold bind at 1; rewrite emit_run.
  unfold bind at 1; rewrite print_run.
  autorewrite with world.
  change (([Print (MsgText "ESP32-C3 Motor Controller - MicroPython")]
           ++ stop_events)
          ++ ([ApConfig "ESP32-Motor" "12345678";
               Print (MsgText "WiFi hotspot created:");
               Print (MsgText "SSID: ESP32-Motor");
               Print (MsgText "Password: 12345678");
               Print (MsgText "IP: 192.168.4.1")] ++ [Listen 80 5])
          ++ [Print (MsgText "Server listening on port 80...")])%list
    with startup_events.
  unfold bind.
  destruct (serve json_loads incoming _) as [[[]|e] w1]; reflexivity.
Qed.

End Loop.

(** ** The handler and the loop as a whole *)

Section Whole.

Variable json_loads : string -> result pyobj.


(** X12. Handling a connection touches nothing but its own socket, the
    console and the three motor pins: every send and close is on this
    connection, every sent text starts with the [200 OK] status line, GPIO3
    is only ever written low, and there is no sleep and no server-socket
    operation. *)
Theorem handler_effects_stay_on_its_connection :
  forall (conn : connection) (w : world),
    exists es,
      trace (exec (handle_request json_loads conn) w) = (trace w ++ es)%list
      /\ forallb (handler_event (conn_id conn)) es = true.
Proof. intros conn w; apply emits_handle_request. Qed.

(** X13. If the pins agree with the flag (pin 1 and the indicator equal to
    it, pin 2 low), they still do after handling any connection and after
    any run of the accept loop. *)
Theorem serving_keeps_pins_consistent :
  forall (conn : connection) (incoming : list accept_result) (w : world),
    pins_consistent w = true ->
    pins_consistent (exec (handle_request json_loads conn) w) = true
    /\ pins_consistent (exec (serve json_loads incoming) w) = true.
Proof.
  intros conn incoming w Hw; split.
  - now apply preserves_pins_handle_request.
  - now apply preserves_pins_serve.
Qed.

(** X14. Whatever levels the pins and the flag had when [main] was
    entered, and whatever arrives afterwards, [main] leaves the pins in
    agreement with the flag: it stops the motor first and every later step
    keeps the agreement. *)
Theorem main_leaves_pins_consistent :
  forall (incoming : list accept_result) (w : world),
    pins_consistent (exec (main json_loads incoming) w) = true.
Proof.
  intros incoming w; unfold exec; rewrite main_run.
  pose proof (preserves_pins_serve json_loads incoming
                (stopped_after w startup_events) eq_refl) as H.
  pose proof (serve_eval json_loads incoming
                (stopped_after w startup_events)) as E.
  unfold exec, eval in *.
  destruct (serve json_loads incoming _) as [r w1]; cbn [fst snd] in *.
  subst r; now destruct (existsb is_interrupt incoming).
Qed.

(** X15. The accept loop never lets an exception out and is left only by a
    keyboard interrupt: its result tells whether one arrived, and whatever
    would have been accepted after the interrupt is never looked at. *)
Theorem serve_stops_only_at_interrupt :
  (forall incoming w,
     eval (serve json_loads incoming) w = Ok (existsb is_interrupt incoming))
  /\ (forall before after w,
        serve json_loads (before ++ KeyboardInterrupt :: after) w
        = serve json_loads (before ++ [KeyboardInterrupt]) w).
Proof.
  split; [apply serve_eval|].
  intros before after; induction before as [|[conn|e|] rest IH]; intros w;
    cbn [app].
  - reflexivity.
  - rewrite !serve_accepted; apply IH.
  - rewrite !serve_accept_error; apply IH.
  - reflexivity.
Qed.

(** X16. Without an interrupt among them, serving a first batch of accept
    results and then a second one is serving the two in a row: the loop
    carries no state of its own besides the world. *)
Theorem serve_composes :
  forall (before after : list accept_result) (w : world),
    existsb is_interrupt before = false ->
    serve json_loads (before ++ after) w
    = serve json_loads after (exec (serve json_loads before) w).
Proof.
  intros before after; induction before as [|[conn|e|] rest IH]; intros w H;
    cbn [app existsb is_interrupt orb] in *; unfold exec.
  - reflexivity.
  - rewrite !serve_accepted; now apply IH.
  - rewrite !serve_accept_error; now apply IH.
  - discriminate H.
Qed.


(** X18. Over a whole run the program only adds effects of these kinds:
    console output, pin writes of the motor operations (GPIO3 never high),
    responses that start with the [200 OK] status line, closes, one-second
    sleeps, the access-point configuration with the fixed name and
    password, listening on port 80 with backlog 5, and closing the server
    socket. *)
Theorem program_effects_are_bounded :
  forall (incoming : list accept_result) (w : world),
    exists es,
      trace (exec (main json_loads incoming) w) = (trace w ++ es)%list
      /\ forallb server_event es = true.
Proof.
  intros incoming.
  change (emits server_event (main json_loads incoming)).
  unfold main, setup_wifi; emitting; try reflexivity.
  apply emits_serve.
Qed.

End Whole.

(** ** Lines and tokens *)

Lemma rstrip_keeps_nonspace c s :
  isspace c = false -> rstrip (String c s) <> EmptyString.
Proof.
  intros H; cbn [rstrip]; rewrite H.
  destruct (rstrip s); discriminate.
Qed.

Lemma split_not_nil sep s : split sep s <> [].
Proof.
  destruct s as [|c s]; cbn [split]; [discriminate|].
  destruct (Ascii.eqb c sep); [discriminate|].
  destruct (split sep s); discriminate.
Qed.

Lemma split_length sep s : length (split sep s) = S (count_char sep s).
Proof.
  induction s as [|c s IH]; [reflexivity|].
  cbn [split count_char]; destruct (Ascii.eqb c sep).
  - cbn [length]; now rewrite IH.
  - destruct (split sep s); cbn [length] in *; [discriminate IH|exact IH].
Qed.

(** X19. A line counts as blank for the body search exactly when all its
    characters are whitespace (space, tab, newline, vertical tab, form feed,
    carriage return); the empty line and the lone carriage return of a CRLF
    request are blank. *)
Theorem blank_line_is_all_whitespace :
  forall line : string, is_blank line = all_space line.
Proof.
  unfold is_blank, strip; induction line as [|c line IH]; [reflexivity|].
  cbn [lstrip all_space]; destruct (isspace c) eqn:Hc; [exact IH|].
  cbn [andb]; apply String.eqb_neq, rstrip_keeps_nonspace, Hc.
Qed.

(** X20. Splitting loses nothing: joining the fields with the separator
    gives the text back, no field contains the separator, and there is one
    field more than there are separators.  So the lines of a request hold
    no newline and the tokens of its first line hold no space. *)
Theorem split_join_round_trip :
  forall (sep : ascii) (s : string),
    join sep (split sep s) = s
    /\ forallb (fun field => (count_char sep field =? 0)%nat) (split sep s)
       = true
    /\ length (split sep s) = S (count_char sep s).
Proof.
  intros sep s; split; [|split; [|apply split_length]].
  - induction s as [|c s IH]; [reflexivity|].
    cbn [split]; destruct (Ascii.eqb_spec c sep) as [->|Hc].
    + pose proof (split_not_nil sep s) as Hn.
      destruct (split sep s) as [|f fs]; [now destruct Hn|].
      cbn [join] in *; now rewrite IH.
    + destruct (split sep s) as [|f fs] eqn:E; [now destruct (split_not_nil sep s)|].
      destruct fs as [|g fs]; cbn [join append] in *; now rewrite IH.
  - induction s as [|c s IH]; [reflexivity|].
    cbn [split]; destruct (Ascii.eqb c sep) eqn:Hc.
    + cbn [forallb count_char Nat.eqb andb]; exact IH.
    + destruct (split sep s) as [|f fs]; cbn [forallb count_char] in *;
        rewrite Hc; [reflexivity|exact IH].
Qed.

(** X21. The first line of a request unpacks into method, path and version
    exactly when it contains two space characters: one space too few or
    too many, a doubled space included, makes the request malformed. *)
Theorem three_tokens_iff_two_spaces :
  forall request : string,
    (length (request_tokens request) =? 3)%nat
    = (count_char " " (hd "" (request_lines request)) =? 2)%nat.
Proof.
  intros request; unfold request_tokens.
  pose proof (split_not_nil (ascii_of_nat 10) request) as Hn.
  unfold request_lines in *.
  destruct (split (ascii_of_nat 10) request) as [|request_line lines];
    [now destruct Hn|].
  cbn [hd]; now rewrite split_length.
Qed.

(** ** The further theorems at sample requests *)

Lemma alarm_delete_stops_motor_sample :
  RefJson.loads Cases.delete_body
  = Ok (PyDict [("action", PyStr "delete"); ("enabled", PyBool true)])
  /\ motor_state (exec (process_alarm_command RefJson.loads Cases.delete_body)
                       Samples.running_world)
     = (false, 128%Z, (false, false, false)).
Proof.
  assert (Hj : RefJson.loads Cases.delete_body
               = Ok (PyDict [("action", PyStr "delete");
                             ("enabled", PyBool true)])) by reflexivity.
  split; [exact Hj|].
  unfold exec.
  rewrite (alarm_delete_stops_motor RefJson.loads Cases.delete_body
             [("action", PyStr "delete"); ("enabled", PyBool true)]
             Samples.running_world Hj eq_refl).
  reflexivity.
Defined.

Lemma alarm_unknown_action_is_noop_sample :
  RefJson.loads Cases.enabled_only_body = Ok (PyDict [("enabled", PyBool true)])
  /\ motor_state (exec (process_alarm_command RefJson.loads
                          Cases.enabled_only_body)
                       (boot false false false))
     = motor_state (boot false false false).
Proof.
  assert (Hj : RefJson.loads Cases.enabled_only_body
               = Ok (PyDict [("enabled", PyBool true)])) by reflexivity.
  split; [exact Hj|].
  unfold exec.
  rewrite (alarm_unknown_action_is_noop RefJson.loads Cases.enabled_only_body
             [("enabled", PyBool true)] (boot false false false) Hj eq_refl).
  reflexivity.
Defined.

Lemma alarm_non_dict_rejected_sample :
  RefJson.loads Cases.list_body = Ok (PyList [PyInt 1; PyInt 2])
  /\ motor_state (exec (handle_request RefJson.loads Cases.alarm_list)
                       Samples.running_world)
     = motor_state Samples.running_world.
Proof.
  split; [reflexivity|].
  unfold exec.
  rewrite (alarm_non_dict_rejected RefJson.loads Cases.alarm_list
             (Samples.post "/alarm" Cases.list_body)
             ("HTTP/1.1" ++ Samples.cr) (PyList [PyInt 1; PyInt 2])
             Samples.running_world eq_refl eq_refl eq_refl eq_refl).
  reflexivity.
Defined.

Lemma alarm_follows_truth_value_of_enabled_sample :
  RefJson.loads Cases.update_text_body
  = Ok (PyDict [("action", PyStr "update"); ("enabled", PyStr "false")])
  /\ motor_state (exec (process_alarm_command RefJson.loads
                          Cases.update_text_body)
                       (boot false false false))
     = (true, 128%Z, (true, false, true)).
Proof.
  assert (Hj : RefJson.loads Cases.update_text_body
               = Ok (PyDict [("action", PyStr "update");
                             ("enabled", PyStr "false")])) by reflexivity.
  split; [exact Hj|].
  exact (proj2
    (alarm_follows_truth_value_of_enabled RefJson.loads Cases.update_text_body
       [("action", PyStr "update"); ("enabled", PyStr "false")]
       "update" (PyStr "false") (boot false false false)
       Hj eq_refl (or_intror (or_introl eq_refl)) eq_refl)).
Defined.

Lemma receive_failure_drops_connection_sample :
  conn_recv Cases.broken = Raise UnicodeError
  /\ handle_request RefJson.loads Cases.broken Samples.running_world
     = (Ok tt, log Samples.running_world
                 [Print (MsgHandlerError UnicodeError); Close 12]).
Proof.
  split; [reflexivity|].
  exact (proj1
    (receive_failure_drops_connection RefJson.loads Cases.broken UnicodeError
       Samples.running_world eq_refl)).
Defined.

Lemma motor_start_route_starts_motor_sample :
  request_tokens (Samples.post "/motor/start" "")
  = ["POST"; "/motor/start"; "HTTP/1.1" ++ Samples.cr]
  /\ motor_state (exec (handle_request RefJson.loads Cases.start_request)
                       (boot false true false))
     = (true, 128%Z, (true, false, true)).
Proof.
  split; [reflexivity|].
  unfold exec.
  rewrite (motor_start_route_starts_motor RefJson.loads Cases.start_request
             (Samples.post "/motor/start" "") ("HTTP/1.1" ++ Samples.cr)
             (boot false true false) eq_refl eq_refl).
  reflexivity.
Defined.

Lemma status_route_reports_and_keeps_state_sample :
  request_tokens (Samples.post "/status" Cases.toggle_off_body)
  = ["POST"; "/status"; "HTTP/1.1" ++ Samples.cr]
  /\ motor_state (exec (handle_request RefJson.loads Cases.status_post)
                       Samples.running_world)
     = motor_state Samples.running_world.
Proof.
  split; [reflexivity|].
  unfold exec.
  rewrite (status_route_reports_and_keeps_state RefJson.loads Cases.status_post
             (Samples.post "/status" Cases.toggle_off_body) "POST"
             ("HTTP/1.1" ++ Samples.cr) Samples.running_world eq_refl eq_refl).
  reflexivity.
Defined.


Lemma only_actuating_posts_change_motor_sample :
  may_actuate Cases.get_motor_start = false
  /\ motor_state (exec (handle_request RefJson.loads Cases.get_motor_start)
                       (boot false false false))
     = motor_state (boot false false false).
Proof.
  split; [reflexivity|].
  exact (only_actuating_posts_change_motor RefJson.loads Cases.get_motor_start
           (boot false false false) eq_refl).
Defined.

Lemma serving_keeps_pins_consistent_sample :
  pins_consistent Samples.running_world = true
  /\ pins_consistent
       (exec (serve RefJson.loads
                [Accepted Samples.stop_request; AcceptError OSError;
                 Accepted Samples.alarm_toggle_on])
             Samples.running_world) = true.
Proof.
  split; [reflexivity|].
  exact (proj2
    (serving_keeps_pins_consistent RefJson.loads Samples.stop_request
       [Accepted Samples.stop_request; AcceptError OSError;
        Accepted Samples.alarm_toggle_on]
       Samples.running_world eq_refl)).
Defined.

Lemma serve_composes_sample :
  existsb is_interrupt [Accepted Cases.start_request; AcceptError OSError]
  = false
  /\ serve RefJson.loads
       ([Accepted Cases.start_request; AcceptError OSError]
        ++ [Accepted Samples.status_query; KeyboardInterrupt])
       (boot false false false)
     = serve RefJson.loads [Accepted Samples.status_query; KeyboardInterrupt]
         (exec (serve RefJson.loads
                  [Accepted Cases.start_request; AcceptError OSError])
               (boot false false false)).
Proof.
  split; [reflexivity|].
  exact (serve_composes RefJson.loads
           [Accepted Cases.start_request; AcceptError OSError]
           [Accepted Samples.status_query; KeyboardInterrupt]
           (boot false false false) eq_refl).
Defined.
